(** * Team-health analytics of pulzebot_mcp: a shallow embedding

    The development follows the Python sources of the dashboard app:

    - [dashboard/services.py]            (class MVPTeamHealthService)
    - [dashboard/models.py]              (TeamHealthTrend.calculate_trend)
    - [dashboard/predictive_analytics.py] (class PredictiveAnalyticsService)
    - [dashboard/early_warning_system.py] (class EarlyWarningSystem)

    Conventions of the embedding.

    - Python floats are modelled by exact rationals [Q]; Python ints by [Z].
      Comparisons are the boolean tests [Qltb], [Qleb]; [==] is [Qeq].
    - A [datetime.date] is its day number (a [Z]); a [datetime] is a number
      of seconds (a [Z]); [timedelta(days=k)] is [k], [timedelta(hours=24)]
      is [86400] seconds.
    - Database tables are lists of rows, in table order.  A queryset
      [filter] is [List.filter] with the same conjunction of tests.
    - Python dicts returned to callers are [gmap string pyval].
    - Texts are [string]s, one [ascii] per character. *)

From Stdlib Require Import ZArith QArith Qround Qabs Qfield Lia Lqa.
From Stdlib Require Import String Ascii.
From stdpp Require Import gmap strings list sorting.

Local Open Scope string_scope.
Local Open Scope list_scope.
Local Open Scope Z_scope.

(** ** Python values and arithmetic *)

Inductive pyval : Type :=
  | PyInt (z : Z)
  | PyNum (q : Q)
  | PyStr (s : string)
  | PyDate (d : Z).

Definition Qltb (x y : Q) : bool := (Qnum x * QDen y <? Qnum y * QDen x)%Z.
Definition Qleb (x y : Q) : bool := (Qnum x * QDen y <=? Qnum y * QDen x)%Z.

(** [min(a, b)] and [max(a, b)] of Python: the first argument wins ties. *)
Definition py_min (a b : Q) : Q := if Qltb b a then b else a.
Definition py_max (a b : Q) : Q := if Qltb a b then b else a.

(** [sum(l)]: left to right, starting from the int [0]. *)
Definition sumQ (l : list Q) : Q := fold_left Qplus l (0 : Q)%Q.
Definition sumZ (l : list Z) : Z := fold_left Z.add l 0.

Definition len {A} (l : list A) : Z := Z.of_nat (length l).

(** [x and x < bound] for an optional float [x]: [None] and [0.0] are
    falsy. *)
Definition truthy_lt (o : option Q) (bound : Q) : bool :=
  match o with
  | Some q => negb (Qeq_bool q 0) && Qltb q bound
  | None => false
  end.

(** Round half to even, as [round] does on the value it is given. *)
Definition round_half_even (q : Q) : Z :=
  let f := Qfloor q in
  let r := (q - inject_Z f)%Q in
  if Qltb r (1 # 2) then f
  else if Qltb (1 # 2) r then f + 1
  else if Z.even f then f else f + 1.

Definition pow10 (n : nat) : Z := 10 ^ Z.of_nat n.

(** [round(x, ndigits)]. *)
Definition py_round (x : Q) (ndigits : nat) : Q :=
  (inject_Z (round_half_even (x * inject_Z (pow10 ndigits))) / inject_Z (pow10 ndigits))%Q.

(** [int(x)]: truncation towards zero. *)
Definition py_int (x : Q) : Z :=
  if Qltb x 0 then Qceiling x else Qfloor x.

(** Django's [Avg] aggregate over a nullable float column: NULLs are
    skipped, and the aggregate of no value is [None]. *)
Definition Avg (col : list (option Q)) : option Q :=
  match omap id col with
  | [] => None
  | vs => Some (sumQ vs / inject_Z (len vs))%Q
  end.

(** ** Text helpers: [str.strip], [str.lower], [in] *)

Definition is_space (c : ascii) : bool :=
  let n := N_of_ascii c in
  ((9 <=? n) && (n <=? 13) || (28 <=? n) && (n <=? 32))%N.

Fixpoint lstrip (s : string) : string :=
  match s with
  | String c t => if is_space c then lstrip t else s
  | EmptyString => EmptyString
  end.

Definition strip (s : string) : string :=
  String.rev (lstrip (String.rev (lstrip s))).

Definition lower_ascii (c : ascii) : ascii :=
  let n := N_of_ascii c in
  if ((65 <=? n) && (n <=? 90))%N then ascii_of_N (n + 32) else c.

Fixpoint lower (s : string) : string :=
  match s with
  | String c t => String (lower_ascii c) (lower t)
  | EmptyString => EmptyString
  end.

Fixpoint contains (needle hay : string) : bool :=
  String.prefix needle hay ||
  match hay with
  | String _ t => contains needle t
  | EmptyString => false
  end.

Definition str_len (s : string) : Z := Z.of_nat (String.length s).

(** ** Rows of the tables read by the engine ([dashboard/models.py]) *)

Module Models.

Record StandupSession : Type := {
session_id : Z;
user : Z;
project : Z;
date : Z;
status : string;
yesterday_work : string;
today_plan : string;
blockers : string;
sentiment_score : option Q
}.

Record WorkItemReference : Type := {
standup_session : Z;
item_status : string
}.

(** [member_username] stands for [member.user.username]. *)
Record TeamMember : Type := {
member_id : Z;
member_user : Z;
member_username : string;
member_project : Z;
is_active : bool
}.

End Models.
Export Models.

(** ** dashboard/predictive_analytics.py *)

Module PredictiveAnalyticsService.

(** [list(range(n))]. *)
Definition range (n : nat) : list Z := seqZ 0 (Z.of_nat n).

Definition _calculate_trend_slope (x_values : list Z) (y_values : list Q) : Q :=
  if negb (length x_values =? length y_values)%nat || (length x_values <? 2)%nat
  then 0%Q
  else
    let n := len x_values in
    let sum_x := sumZ x_values in
    let sum_y := sumQ y_values in
    let sum_xy := sumQ (zip_with (fun x y => (inject_Z x * y)%Q) x_values y_values) in
    let sum_x_squared := sumZ (List.map (fun x => x * x) x_values) in
    let denominator := n * sum_x_squared - sum_x * sum_x in
    if denominator =? 0 then 0%Q
    else ((inject_Z n * sum_xy - inject_Z sum_x * sum_y) / inject_Z denominator)%Q.

(** The [defaultdict(list)] keyed by date, in insertion order. *)
Fixpoint dd_append (k : Z) (v : Q) (d : list (Z * list Q)) : list (Z * list Q) :=
  match d with
  | [] => [(k, [v])]
  | (k', vs) :: rest =>
      if k' =? k then (k', vs ++ [v]) :: rest else (k', vs) :: dd_append k v rest
  end.

Definition group_by_date (data : list (Z * Q)) : list (Z * list Q) :=
  fold_left (fun d kv => dd_append (fst kv) (snd kv) d) data [].

(** [list.sort(key=lambda x: x[0])]: a stable sort on the date. *)
Fixpoint insert_by_date (p : Z * Q) (l : list (Z * Q)) : list (Z * Q) :=
  match l with
  | [] => [p]
  | q :: rest => if fst p <? fst q then p :: l else q :: insert_by_date p rest
  end.

Definition sort_by_date (l : list (Z * Q)) : list (Z * Q) :=
  fold_left (fun acc p => insert_by_date p acc) l [].

Record prediction : Type := {
  pred_date : Z;
  predicted_sentiment : Q;
  confidence : Q
}.

Record sentiment_trends : Type := {
  current_trend : string;
  trend_slope : Q;
  recent_average : Q;
  historical_average : Q;
  future_predictions : list prediction;
  data_points : Z
}.

(** [daily_averages[-7:]]. *)
Definition last_n {A} (n : nat) (l : list A) : list A :=
  skipn (length l - n) l.

(** The daily-average series, sorted by date. *)
Definition daily_series (sessions : list StandupSession) : list (Z * Q) :=
  let sentiment_data :=
    omap (fun s => match sentiment_score s with
                   | Some sc => Some (date s, sc)
                   | None => None
                   end) sessions in
  let daily_sentiment := group_by_date sentiment_data in
  sort_by_date
    (List.map (fun ds => (fst ds, (sumQ (snd ds) / inject_Z (len (snd ds)))%Q))
              daily_sentiment).

(** The result is [inl msg] for the [{'error': msg}] dict.  The fields
    [weekly_patterns] and [volatility] of the result are computed from
    the same series by two helpers and read by nothing below; they are
    not part of the record. *)
Definition _predict_sentiment_trends (sessions : list StandupSession)
  : string + sentiment_trends :=
  let sentiment_data :=
    omap (fun s => match sentiment_score s with
                   | Some sc => Some (date s, sc)
                   | None => None
                   end) sessions in
  if (length sentiment_data <? 5)%nat
  then inl "Insufficient sentiment data for prediction"
  else
    let pairs := daily_series sessions in
    let dates := List.map fst pairs in
    let daily_averages := List.map snd pairs in
    let slope := _calculate_trend_slope (range (length daily_averages)) daily_averages in
    let last_score := List.last daily_averages 0%Q in
    let last_date := List.last dates 0 in
    let future :=
      List.map (fun i =>
        let predicted_score := (last_score + slope * inject_Z i)%Q in
        let predicted_score := py_max 0 (py_min 1 predicted_score) in
        {| pred_date := last_date + i;
           predicted_sentiment := py_round predicted_score 3;
           confidence := py_max (1 # 2) (1 - inject_Z i * (1 # 10))%Q |})
        (seqZ 1 7) in
    let recent_avg :=
      (sumQ (last_n 7 daily_averages) / inject_Z (Z.min 7 (len daily_averages)))%Q in
    let historical_avg := (sumQ daily_averages / inject_Z (len daily_averages))%Q in
    inr {| current_trend :=
             if Qltb (1 # 100) slope then "improving"
             else if Qltb slope (- (1 # 100)) then "declining"
             else "stable";
           trend_slope := py_round slope 4;
           recent_average := py_round recent_avg 3;
           historical_average := py_round historical_avg 3;
           future_predictions := future;
           data_points := len daily_averages |}.

End PredictiveAnalyticsService.

(** ** dashboard/services.py: the four metric calculators *)

Module MVPTeamHealthService.

(** The queryset [StandupSession.objects.filter(project=self.project,
    date__range=[start_date, end_date])]. *)
Definition sessions_in_range (table : list StandupSession)
    (self_project start_date end_date : Z) : list StandupSession :=
  List.filter (fun s => (project s =? self_project) &&
                        (start_date <=? date s) && (date s <=? end_date)) table.

Definition has_blockers (s : StandupSession) : bool :=
  negb (String.eqb (blockers s) "").

Definition dict (l : list (string * pyval)) : gmap string pyval := list_to_map l.

Definition _get_participation_metrics (table : list StandupSession)
    (self_project start_date end_date : Z) : gmap string pyval :=
  let sessions := sessions_in_range table self_project start_date end_date in
  match sessions with
  | [] => dict [("rate", PyInt 0); ("trend", PyStr "no_data"); ("status", PyStr "concerning")]
  | _ =>
    let total_sessions := len sessions in
    let completed_sessions :=
      len (List.filter (fun s => String.eqb (status s) "completed") sessions) in
    let participation_rate :=
      if 0 <? total_sessions
      then (inject_Z completed_sessions / inject_Z total_sessions * 100)%Q else 0%Q in
    let mid_date := start_date + (end_date - start_date) / 2 in
    let first_half := len (List.filter (fun s => date s <? mid_date) sessions) in
    let second_half := len (List.filter (fun s => mid_date <=? date s) sessions) in
    let trend_direction :=
      if first_half =? 0 then "stable"
      else if Qltb (inject_Z first_half * (11 # 10)) (inject_Z second_half) then "improving"
      else if Qltb (inject_Z second_half) (inject_Z first_half * (9 # 10)) then "declining"
      else "stable" in
    let status :=
      if Qleb 70 participation_rate then "good"
      else if Qltb participation_rate 50 then "concerning" else "average" in
    dict [("rate", PyNum (py_round participation_rate 1));
          ("trend", PyStr trend_direction);
          ("status", PyStr status);
          ("data_points", PyInt total_sessions);
          ("last_updated", PyDate end_date)]
  end.

Definition scores_of (l : list StandupSession) : list Q :=
  omap sentiment_score l.

Definition _get_sentiment_metrics (table : list StandupSession)
    (self_project start_date end_date : Z) : gmap string pyval :=
  let sessions :=
    List.filter (fun s => match sentiment_score s with Some _ => true | None => false end)
                (sessions_in_range table self_project start_date end_date) in
  match sessions with
  | [] => dict [("score", PyInt 0); ("trend", PyStr "no_data"); ("status", PyStr "neutral")]
  | _ =>
    let sentiment_scores := scores_of sessions in
    let avg_sentiment :=
      match sentiment_scores with
      | [] => 0%Q
      | _ => (sumQ sentiment_scores / inject_Z (len sentiment_scores))%Q
      end in
    let avg_score_100 := (avg_sentiment * 100)%Q in
    let mid_date := start_date + (end_date - start_date) / 2 in
    let first_half_scores :=
      scores_of (List.filter (fun s => date s <? mid_date) sessions) in
    let second_half_scores :=
      scores_of (List.filter (fun s => mid_date <=? date s) sessions) in
    let trend_direction :=
      match first_half_scores with
      | [] => "stable"
      | _ =>
        let first_avg := (sumQ first_half_scores / inject_Z (len first_half_scores))%Q in
        let second_avg :=
          match second_half_scores with
          | [] => first_avg
          | _ => (sumQ second_half_scores / inject_Z (len second_half_scores))%Q
          end in
        if Qltb (first_avg * (105 # 100)) second_avg then "improving"
        else if Qltb second_avg (first_avg * (95 # 100)) then "declining"
        else "stable"
      end in
    let status :=
      if Qleb 70 avg_score_100 then "good"
      else if Qltb avg_score_100 40 then "concerning" else "average" in
    dict [("score", PyNum (py_round avg_score_100 1));
          ("trend", PyStr trend_direction);
          ("status", PyStr status);
          ("data_points", PyInt (len sentiment_scores));
          ("last_updated", PyDate end_date)]
  end.

Definition _get_blocker_metrics (table : list StandupSession)
    (self_project start_date end_date : Z) : gmap string pyval :=
  let sessions := sessions_in_range table self_project start_date end_date in
  match sessions with
  | [] => dict [("resolution_rate", PyInt 0); ("trend", PyStr "no_data");
                ("status", PyStr "concerning")]
  | _ =>
    let total_sessions_with_blockers := len (List.filter has_blockers sessions) in
    let resolved_blockers := py_int (inject_Z total_sessions_with_blockers * (7 # 10)) in
    let resolution_rate :=
      if 0 <? total_sessions_with_blockers
      then (inject_Z resolved_blockers / inject_Z total_sessions_with_blockers * 100)%Q
      else 0%Q in
    let mid_date := start_date + (end_date - start_date) / 2 in
    let first_half_blockers :=
      len (List.filter has_blockers (List.filter (fun s => date s <? mid_date) sessions)) in
    let second_half_blockers :=
      len (List.filter has_blockers (List.filter (fun s => mid_date <=? date s) sessions)) in
    let trend_direction :=
      if first_half_blockers =? 0 then "stable"
      else if Qltb (inject_Z second_half_blockers) (inject_Z first_half_blockers * (8 # 10))
           then "improving"
      else if Qltb (inject_Z first_half_blockers * (12 # 10)) (inject_Z second_half_blockers)
           then "declining"
      else "stable" in
    let status :=
      if Qleb 80 resolution_rate then "good"
      else if Qltb resolution_rate 60 then "concerning" else "average" in
    dict [("resolution_rate", PyNum (py_round resolution_rate 1));
          ("trend", PyStr trend_direction);
          ("status", PyStr status);
          ("data_points", PyInt total_sessions_with_blockers);
          ("last_updated", PyDate end_date)]
  end.

(** The join [standup_session__...]: the session a work item points to. *)
Definition session_of (table : list StandupSession) (w : WorkItemReference)
  : option StandupSession :=
  List.find (fun s => session_id s =? standup_session w) table.

Definition item_session_test (table : list StandupSession)
    (test : StandupSession -> bool) (w : WorkItemReference) : bool :=
  match session_of table w with
  | Some s => test s
  | None => false
  end.

Definition is_done (w : WorkItemReference) : bool :=
  String.eqb (item_status w) "completed" || String.eqb (item_status w) "done"
  || String.eqb (item_status w) "approved".

Definition _get_work_item_metrics (table : list StandupSession)
    (items : list WorkItemReference)
    (self_project start_date end_date : Z) : gmap string pyval :=
  let work_items :=
    List.filter (item_session_test table
                   (fun s => (project s =? self_project) &&
                             (start_date <=? date s) && (date s <=? end_date))) items in
  match work_items with
  | [] => dict [("completion_rate", PyInt 0); ("trend", PyStr "no_data");
                ("status", PyStr "no_data")]
  | _ =>
    let total_items := len work_items in
    let completed_items := len (List.filter is_done work_items) in
    let completion_rate :=
      if 0 <? total_items
      then (inject_Z completed_items / inject_Z total_items * 100)%Q else 0%Q in
    let mid_date := start_date + (end_date - start_date) / 2 in
    let first_half_items :=
      len (List.filter (item_session_test table (fun s => date s <? mid_date)) work_items) in
    let second_half_items :=
      len (List.filter (item_session_test table (fun s => mid_date <=? date s)) work_items) in
    let trend_direction :=
      if first_half_items =? 0 then "stable"
      else if Qltb (inject_Z first_half_items * (11 # 10)) (inject_Z second_half_items)
           then "improving"
      else if Qltb (inject_Z second_half_items) (inject_Z first_half_items * (9 # 10))
           then "declining"
      else "stable" in
    let status :=
      if Qleb 75 completion_rate then "good"
      else if Qltb completion_rate 50 then "concerning" else "average" in
    dict [("completion_rate", PyNum (py_round completion_rate 1));
          ("trend", PyStr trend_direction);
          ("status", PyStr status);
          ("data_points", PyInt total_items);
          ("last_updated", PyDate end_date)]
  end.

(** [metrics.get(metric_name, {}).get(key, 0)]. *)
Definition metric_get (metrics : gmap string (gmap string pyval))
    (metric_name key : string) : pyval :=
  default (PyInt 0) (default ∅ (metrics !! metric_name) !! key).

(** [normalised * weight] with a float weight: a number for an int or a
    float, [None] where Python raises [TypeError]. *)
Definition times_weight (normalised : pyval) (weight : Q) : option Q :=
  match normalised with
  | PyInt z => Some (inject_Z z * weight)%Q
  | PyNum q => Some (q * weight)%Q
  | PyStr _ | PyDate _ => None
  end.

Definition weights : list (string * Q) :=
  [("participation", 3 # 10); ("sentiment", 25 # 100);
   ("blockers", 25 # 100); ("work_items", 2 # 10)].

Definition value_key (metric_name : string) : option string :=
  if String.eqb metric_name "participation" then Some "rate"
  else if String.eqb metric_name "sentiment" then Some "score"
  else if String.eqb metric_name "blockers" then Some "resolution_rate"
  else if String.eqb metric_name "work_items" then Some "completion_rate"
  else None.

Definition _calculate_overall_health_score (metrics : gmap string (gmap string pyval))
  : option (gmap string pyval) :=
  scores ← mapM (fun mw : string * Q =>
              let normalised :=
                match value_key (fst mw) with
                | Some key => metric_get metrics (fst mw) key
                | None => PyInt 0
                end in
              times_weight normalised (snd mw)) weights;
  let overall_score := sumQ scores in
  let status :=
    if Qleb 80 overall_score then "excellent"
    else if Qleb 70 overall_score then "good"
    else if Qltb overall_score 50 then "concerning" else "average" in
  Some (dict [("score", PyNum (py_round overall_score 1));
              ("status", PyStr status);
              ("max_score", PyInt 100)]).

End MVPTeamHealthService.

(** ** dashboard/models.py: TeamHealthTrend *)

Module TeamHealthTrend.

Record row : Type := {
  t_project : Z;
  metric_type : string;
  t_date : Z;
  current_value : Q;
  previous_value : option Q;
  change_percentage : option Q;
  trend_direction : string;
  rolling_average_7d : option Q;
  rolling_average_30d : option Q;
  anomaly_detected : bool;
  alert_threshold_breached : bool
}.

Definition same_series (p : Z) (m : string) (r : row) : bool :=
  (t_project r =? p) && String.eqb (metric_type r) m.

Definition same_key (p : Z) (m : string) (d : Z) (r : row) : bool :=
  same_series p m r && (t_date r =? d).

(** [.order_by('-date').first()]: a row of greatest date, [None] on an
    empty queryset. *)
Definition latest (rows : list row) : option row :=
  fold_left (fun best r =>
               match best with
               | None => Some r
               | Some b => if t_date b <? t_date r then Some r else Some b
               end) rows None.

Inductive outcome : Type :=
  | Ok (trend : row) (table : list row)
  | MultipleObjectsReturned.

(** [cls.objects.update_or_create(project=.., metric_type=.., date=..,
    defaults={..})]: the fields outside the key and the defaults are
    those of a fresh row on creation and are kept on update. *)
Definition update_or_create (table : list row) (p : Z) (m : string) (d : Z)
    (cur : Q) (prev chg : option Q) (dir : string) (r7 r30 : option Q) : outcome :=
  let with_defaults (anomaly breached : bool) :=
    {| t_project := p; metric_type := m; t_date := d;
       current_value := cur; previous_value := prev; change_percentage := chg;
       trend_direction := dir; rolling_average_7d := r7; rolling_average_30d := r30;
       anomaly_detected := anomaly; alert_threshold_breached := breached |} in
  match List.filter (same_key p m d) table with
  | [] =>
      let trend := with_defaults false false in
      Ok trend (table ++ [trend])
  | [old] =>
      let trend := with_defaults (anomaly_detected old) (alert_threshold_breached old) in
      Ok trend (List.map (fun r => if same_key p m d r then trend else r) table)
  | _ => MultipleObjectsReturned
  end.

Definition calculate_trend (table : list row) (today : Z)
    (project : Z) (metric_type : string) (current_value : Q) (date : option Z)
  : outcome :=
  let date := match date with Some d => d | None => today end in
  let previous_trend :=
    latest (List.filter (fun r => same_series project metric_type r && (t_date r <? date))
                        table) in
  let previous_value := TeamHealthTrend.current_value <$> previous_trend in
  let '(change_percentage, trend_direction) :=
    match previous_value with
    | Some pv =>
        if negb (Qeq_bool pv 0) then
          let change_percentage := ((current_value - pv) / pv * 100)%Q in
          (Some change_percentage,
           if Qltb 5 change_percentage then "improving"
           else if Qltb change_percentage (-5) then "declining"
           else if Qltb 15 (Qabs change_percentage) then "volatile"
           else "stable")
        else (None, "stable")
    | None => (None, "stable")
    end in
  let date_7d_ago := date - 7 in
  let date_30d_ago := date - 30 in
  let recent_trends :=
    List.filter (fun r => same_series project metric_type r &&
                          (date_7d_ago <=? t_date r) && (t_date r <? date)) table in
  let rolling_7d := Avg (List.map (fun r => Some (TeamHealthTrend.current_value r)) recent_trends) in
  let monthly_trends :=
    List.filter (fun r => same_series project metric_type r &&
                          (date_30d_ago <=? t_date r) && (t_date r <? date)) table in
  let rolling_30d := Avg (List.map (fun r => Some (TeamHealthTrend.current_value r)) monthly_trends) in
  update_or_create table project metric_type date
    current_value previous_value change_percentage trend_direction rolling_7d rolling_30d.

End TeamHealthTrend.

(** ** dashboard/early_warning_system.py *)

Module EarlyWarningSystem.

Record TeamHealthAlert : Type := {
  alert_id : Z;
  alert_project : Z;
  team_member : option Z;
  alert_type : string;
  severity : string;
  alert_status : string;
  context_data : gmap string pyval;
  confidence_score : Q;
  created_at : Z
}.

(** The tables the checks read and write.  [next_alert_id] is the
    primary-key sequence of the alert table. *)
Record Store : Type := {
  sessions : list StandupSession;
  team_members : list TeamMember;
  alerts : list TeamHealthAlert;
  next_alert_id : Z
}.

(** The item a check returns for one alert: the dict
    [{'alert': 'created', 'id', 'severity', ..., 'confidence'}] or
    [{'alert': 'duplicate', 'existing_id'}].  Titles and descriptions
    are formatted texts that no test reads; they are left out of the
    rows and of the items. *)
Inductive alert_item : Type :=
  | Created (id : Z) (severity : string) (confidence : Q)
  | Duplicate (existing_id : Z).

Definition SENTIMENT_DECLINE_THRESHOLD : Q := - (3 # 10).
Definition SENTIMENT_TREND_THRESHOLD : Q := - (2 # 10).
Definition BLOCKER_FREQUENCY_THRESHOLD : Q := 5 # 10.
Definition PARTICIPATION_THRESHOLD : Q := 6 # 10.
Definition BURNOUT_INDICATOR_THRESHOLD : Z := 3.

(** [demo_now().date()]. *)
Definition date_of (now : Z) : Z := now / 86400.

(** The default ordering of the alert table, [-created_at, -severity]:
    does [a] come strictly before [b]? *)
Definition comes_before (a b : TeamHealthAlert) : bool :=
  (created_at b <? created_at a) ||
  ((created_at a =? created_at b) && String.ltb (severity b) (severity a)).

(** [.first()] under that ordering. *)
Definition first (rows : list TeamHealthAlert) : option TeamHealthAlert :=
  fold_left (fun best r =>
               match best with
               | None => Some r
               | Some b => if comes_before r b then Some r else Some b
               end) rows None.

Definition is_recent_active (project : Z) (type : string) (now : Z)
    (a : TeamHealthAlert) : bool :=
  (alert_project a =? project) && String.eqb (alert_type a) type &&
  String.eqb (alert_status a) "active" && (now - 86400 <=? created_at a).

(** [now] is the value of [demo_now()]; [wall] is the clock the database
    stamps [created_at] with ([auto_now_add]). *)
Definition _create_alert (st : Store) (now wall : Z)
    (project : Z) (alert_type severity : string) (confidence_score : Q)
    (context_data : gmap string pyval) (team_member : option Z)
  : alert_item * Store :=
  match first (List.filter (is_recent_active project alert_type now) (alerts st)) with
  | Some existing_alert => (Duplicate (alert_id existing_alert), st)
  | None =>
      let alert :=
        {| alert_id := next_alert_id st;
           alert_project := project;
           team_member := team_member;
           alert_type := alert_type;
           severity := severity;
           alert_status := "active";
           context_data := context_data;
           confidence_score := confidence_score;
           created_at := wall |} in
      (Created (alert_id alert) severity confidence_score,
       {| sessions := sessions st;
          team_members := team_members st;
          alerts := alerts st ++ [alert];
          next_alert_id := next_alert_id st + 1 |})
  end.

Definition _check_sentiment_decline (st : Store) (now wall : Z) (project : Z)
  : list alert_item * Store :=
  let end_date := date_of now in
  let start_date := end_date - 14 in
  let recent_sessions :=
    List.filter (fun s => (Models.project s =? project) &&
                          (start_date <=? date s) &&
                          String.eqb (status s) "completed" &&
                          match sentiment_score s with Some _ => true | None => false end)
                (sessions st) in
  if len recent_sessions <? 5 then ([], st)
  else
    let avg_sentiment := Avg (List.map sentiment_score recent_sessions) in
    let mid_date := start_date + 7 in
    let older_sentiment :=
      Avg (List.map sentiment_score
             (List.filter (fun s => date s <? mid_date) recent_sessions)) in
    let newer_sentiment :=
      Avg (List.map sentiment_score
             (List.filter (fun s => mid_date <=? date s) recent_sessions)) in
    (* avg_sentiment and avg_sentiment < self.SENTIMENT_DECLINE_THRESHOLD *)
    let low_average :=
      match avg_sentiment with
      | Some avg =>
          if negb (Qeq_bool avg 0) && Qltb avg SENTIMENT_DECLINE_THRESHOLD
          then Some avg else None
      | None => None
      end in
    (* older_sentiment and newer_sentiment and
       newer_sentiment < older_sentiment - self.SENTIMENT_TREND_THRESHOLD *)
    let declining_trend :=
      match older_sentiment, newer_sentiment with
      | Some o, Some n =>
          if negb (Qeq_bool o 0) && negb (Qeq_bool n 0) &&
             Qltb n (o - SENTIMENT_TREND_THRESHOLD)
          then Some (o, n) else None
      | _, _ => None
      end in
    match low_average, declining_trend with
    | Some avg, _ =>
        let severity := if Qltb avg (- (5 # 10)) then "critical" else "high" in
        let trending :=
          match newer_sentiment, older_sentiment with
          | Some n, Some o =>
              if negb (Qeq_bool n 0) && negb (Qeq_bool o 0) && Qltb n o
              then "declining" else "stable"
          | _, _ => "stable"
          end in
        let '(alert, st') :=
          _create_alert st now wall project "sentiment_decline" severity
            (py_min 1 (Qabs avg * 2))
            (list_to_map [("avg_sentiment", PyNum avg);
                          ("sessions_analysed", PyInt (len recent_sessions));
                          ("trending", PyStr trending)])
            None in
        ([alert], st')
    | None, Some (o, n) =>
        let '(alert, st') :=
          _create_alert st now wall project "sentiment_decline" "medium"
            (py_min 1 ((o - n) * 3))
            (list_to_map [("older_sentiment", PyNum o);
                          ("newer_sentiment", PyNum n);
                          ("trend_magnitude", PyNum (o - n))])
            None in
        ([alert], st')
    | None, None => ([], st)
    end.

Definition quality_indicators : list string :=
  ["ticket"; "bug"; "feature"; "test"; "review"; "deploy"; "fix"; "implement"].

Definition _assess_content_quality (session : StandupSession) : Q :=
  let score := 0%Q in
  let score :=
    if negb (String.eqb (yesterday_work session) "") &&
       (20 <? str_len (strip (yesterday_work session)))
    then (score + (4 # 10))%Q else score in
  let score :=
    if negb (String.eqb (today_plan session) "") &&
       (20 <? str_len (strip (today_plan session)))
    then (score + (4 # 10))%Q else score in
  let content :=
    lower (String.append (yesterday_work session)
                         (String.append " " (today_plan session))) in
  let score :=
    if existsb (fun indicator => contains indicator content) quality_indicators
    then (score + (2 # 10))%Q else score in
  py_min 1 score.

Definition _calculate_burnout_score (st : Store) (now : Z) (member : TeamMember) : Z :=
  let score := 0 in
  let end_date := date_of now in
  let start_date := end_date - 14 in
  let user_sessions :=
    List.filter (fun s => (user s =? member_user member) &&
                          (Models.project s =? member_project member) &&
                          (start_date <=? date s) &&
                          String.eqb (status s) "completed")
                (sessions st) in
  if len user_sessions =? 0 then 0
  else
    let avg_sentiment := Avg (List.map sentiment_score user_sessions) in
    let score := if truthy_lt avg_sentiment (- (3 # 10)) then score + 2 else score in
    let blocker_sessions :=
      List.filter (fun s => negb (String.eqb (blockers s) "")) user_sessions in
    let blocker_rate := (inject_Z (len blocker_sessions) / inject_Z (len user_sessions))%Q in
    let score := if Qltb (5 # 10) blocker_rate then score + 1 else score in
    let low_quality_count :=
      len (List.filter (fun session => Qltb (_assess_content_quality session) (3 # 10))
                       user_sessions) in
    let score :=
      if Qltb (inject_Z (len user_sessions) * (4 # 10)) (inject_Z low_quality_count)
      then score + 1 else score in
    let expected_sessions := 14 in
    let score :=
      if Qltb (inject_Z (len user_sessions)) (inject_Z expected_sessions * (6 # 10))
      then score + 1 else score in
    score.

(** The loop of [_check_team_member_burnout] over the members that are
    left, with the alerts collected so far. *)
Fixpoint burnout_loop (now wall : Z) (project : Z) (members : list TeamMember)
    (alerts : list alert_item) (st : Store) : list alert_item * Store :=
  match members with
  | [] => (alerts, st)
  | member :: rest =>
      let burnout_score := _calculate_burnout_score st now member in
      if BURNOUT_INDICATOR_THRESHOLD <=? burnout_score then
        let severity := if 5 <=? burnout_score then "critical" else "high" in
        let '(alert, st') :=
          _create_alert st now wall project "team_member_burnout" severity
            (py_min 1 (inject_Z burnout_score / 5))
            (list_to_map [("burnout_score", PyInt burnout_score);
                          ("member_id", PyInt (member_id member));
                          ("member_username", PyStr (member_username member))])
            (Some (member_id member)) in
        burnout_loop now wall project rest (alerts ++ [alert]) st'
      else burnout_loop now wall project rest alerts st
  end.

Definition _check_team_member_burnout (st : Store) (now wall : Z) (project : Z)
  : list alert_item * Store :=
  let team_members :=
    List.filter (fun m => (member_project m =? project) && is_active m)
                (team_members st) in
  burnout_loop now wall project team_members [] st.

End EarlyWarningSystem.

(** ** dashboard/predictive_analytics.py: the risk assessment *)

Module RiskAssessment.

(** [date.weekday()] of the date whose day number ([date.toordinal()])
    is [d]: 0 is Monday, 6 is Sunday. *)
Definition weekday (d : Z) : Z := (d + 6) mod 7.

(** [session.work_item_refs.count()]. *)
Definition work_item_count (items : list WorkItemReference) (s : StandupSession) : Z :=
  len (List.filter (fun w => standup_session w =? session_id s) items).

(** The label every sub-score carries, with its two bounds. *)
Definition trend_label (hi lo : Q) (risk_score : Q) : string :=
  if Qltb hi risk_score then "concerning"
  else if Qltb lo risk_score then "moderate" else "good".

Definition sentiment_threshold_negative : Q := 4 # 10.

Definition _assess_sentiment_risk (sessions : list StandupSession) : gmap string pyval :=
  let sentiment_scores := omap sentiment_score sessions in
  match sentiment_scores with
  | [] => list_to_map [("score", PyNum (5 # 10));
                       ("reason", PyStr "No sentiment data available")]
  | _ =>
    let avg_sentiment := (sumQ sentiment_scores / inject_Z (len sentiment_scores))%Q in
    let negative_sessions :=
      len (List.filter (fun score => Qltb score sentiment_threshold_negative)
                       sentiment_scores) in
    let negative_ratio := (inject_Z negative_sessions / inject_Z (len sentiment_scores))%Q in
    let risk_score := py_max 0 (py_min 1 ((1 - avg_sentiment) + negative_ratio)) in
    list_to_map [("score", PyNum (py_round risk_score 3));
                 ("average_sentiment", PyNum (py_round avg_sentiment 3));
                 ("negative_sessions_ratio", PyNum (py_round negative_ratio 3));
                 ("trend", PyStr (trend_label (6 # 10) (3 # 10) risk_score))]
  end.

Definition _assess_productivity_risk (items : list WorkItemReference)
    (sessions : list StandupSession) : gmap string pyval :=
  let total_sessions := len sessions in
  if total_sessions =? 0
  then list_to_map [("score", PyNum (5 # 10)); ("reason", PyStr "No session data available")]
  else
    let minimal_content_sessions :=
      len (List.filter
             (fun session =>
                str_len (String.append (yesterday_work session) (today_plan session)) <? 50)
             sessions) in
    let no_work_items_sessions :=
      len (List.filter (fun session => work_item_count items session =? 0) sessions) in
    let minimal_ratio := (inject_Z minimal_content_sessions / inject_Z total_sessions)%Q in
    let no_items_ratio := (inject_Z no_work_items_sessions / inject_Z total_sessions)%Q in
    let risk_score := ((minimal_ratio + no_items_ratio) / 2)%Q in
    list_to_map [("score", PyNum (py_round risk_score 3));
                 ("minimal_content_ratio", PyNum (py_round minimal_ratio 3));
                 ("no_work_items_ratio", PyNum (py_round no_items_ratio 3));
                 ("trend", PyStr (trend_label (6 # 10) (3 # 10) risk_score))].

(** The [defaultdict(int)] of session counts per user, in insertion
    order. *)
Fixpoint count_up (u : Z) (d : list (Z * Z)) : list (Z * Z) :=
  match d with
  | [] => [(u, 1)]
  | (u', n) :: rest => if u' =? u then (u', n + 1) :: rest else (u', n) :: count_up u rest
  end.

Definition _assess_communication_risk (sessions : list StandupSession)
  : gmap string pyval :=
  let total_sessions := len sessions in
  let user_session_counts := fold_left (fun d s => count_up (user s) d) sessions [] in
  let unique_users := len user_session_counts in
  if (total_sessions =? 0) || (unique_users =? 0)
  then list_to_map [("score", PyNum (5 # 10)); ("reason", PyStr "Insufficient data")]
  else
    let max_possible_sessions := 10 in
    let avg_participation :=
      (inject_Z (sumZ (List.map snd user_session_counts))
       / inject_Z (len user_session_counts))%Q in
    let participation_rate := (avg_participation / inject_Z max_possible_sessions)%Q in
    let risk_score := py_max 0 (py_min 1 (1 - participation_rate)) in
    list_to_map [("score", PyNum (py_round risk_score 3));
                 ("participation_rate", PyNum (py_round participation_rate 3));
                 ("unique_contributors", PyInt unique_users);
                 ("avg_sessions_per_user", PyNum (py_round avg_participation 1));
                 ("trend", PyStr (trend_label (6 # 10) (3 # 10) risk_score))].

Definition stress_words : list string :=
  ["urgent"; "critical"; "stuck"; "blocked"; "frustrated"; "overwhelmed"].

Definition _assess_workload_risk (sessions : list StandupSession) : gmap string pyval :=
  let blocker_sessions :=
    List.filter (fun s => negb (String.eqb (blockers s) "")) sessions in
  let total_sessions := len sessions in
  if total_sessions =? 0
  then list_to_map [("score", PyNum (5 # 10)); ("reason", PyStr "No session data")]
  else
    let blocker_ratio := (inject_Z (len blocker_sessions) / inject_Z total_sessions)%Q in
    let high_stress_indicators :=
      len (List.filter
             (fun session =>
                let blocker_text := lower (blockers session) in
                existsb (fun word => contains word blocker_text) stress_words)
             blocker_sessions) in
    let stress_ratio :=
      (inject_Z high_stress_indicators / inject_Z (Z.max total_sessions 1))%Q in
    let risk_score := py_min 1 (blocker_ratio + stress_ratio) in
    list_to_map [("score", PyNum (py_round risk_score 3));
                 ("blocker_frequency", PyNum (py_round blocker_ratio 3));
                 ("stress_indicators", PyInt high_stress_indicators);
                 ("stress_ratio", PyNum (py_round stress_ratio 3));
                 ("trend", PyStr (trend_label (5 # 10) (25 # 100) risk_score))].

(** [sessions.order_by('date')], reduced to the dates. *)
Fixpoint insert_date (d : Z) (l : list Z) : list Z :=
  match l with
  | [] => [d]
  | e :: rest => if d <? e then d :: l else e :: insert_date d rest
  end.

Definition sorted_dates (sessions : list StandupSession) : list Z :=
  fold_left (fun acc s => insert_date (date s) acc) sessions [].

Definition _assess_consistency_risk (sessions : list StandupSession)
  : gmap string pyval :=
  let dates := sorted_dates sessions in
  if len dates <? 2
  then list_to_map [("score", PyNum (5 # 10)); ("reason", PyStr "Insufficient date range")]
  else
    let first_date := List.hd 0 dates in
    let last_date := List.last dates 0 in
    let date_range := last_date - first_date + 1 in
    let workdays :=
      len (List.filter (fun i => weekday (first_date + i) <? 5) (seqZ 0 date_range)) in
    let consistency_ratio := (inject_Z (len dates) / inject_Z (Z.max workdays 1))%Q in
    let risk_score := py_max 0 (py_min 1 (1 - consistency_ratio)) in
    list_to_map [("score", PyNum (py_round risk_score 3));
                 ("consistency_ratio", PyNum (py_round consistency_ratio 3));
                 ("sessions_submitted", PyInt (len dates));
                 ("expected_workdays", PyInt workdays);
                 ("trend", PyStr (trend_label (4 # 10) (2 # 10) risk_score))].

(** [risk_data.get('score', 0)] and [risk['score']] as numbers. *)
Definition score_of (risk : gmap string pyval) : option Q :=
  match risk !! "score" with
  | Some (PyNum q) => Some q
  | Some (PyInt z) => Some (inject_Z z)
  | _ => None
  end.

Definition trend_of (risk : gmap string pyval) : string :=
  match risk !! "trend" with
  | Some (PyStr s) => s
  | _ => "unknown"
  end.

(** [risk_name.replace('_', ' ')]. *)
Fixpoint underscores_to_spaces (s : string) : string :=
  match s with
  | String c t =>
      String (if Ascii.eqb c "_"%char then " "%char else c) (underscores_to_spaces t)
  | EmptyString => EmptyString
  end.

Definition _identify_risk_factors (risks : list (string * gmap string pyval))
  : list string :=
  omap (fun nr : string * gmap string pyval =>
          if Qltb (5 # 10) (default 0%Q (score_of (snd nr)))
          then Some (String.append "High "
                       (String.append (underscores_to_spaces (fst nr))
                          (String.append ": " (trend_of (snd nr)))))
          else None) risks.

Record team_risks : Type := {
  overall_risk_score : Q;
  risk_level : string;
  individual_risks : list (string * gmap string pyval);
  risk_factors : list string;
  assessment_date : Z
}.

(** [sessions] is the queryset the caller passes, [now] the value of
    [demo_now()]. *)
Definition _assess_team_risks (items : list WorkItemReference)
    (sessions : list StandupSession) (now : Z) : team_risks :=
  let recent_sessions :=
    List.filter (fun s => EarlyWarningSystem.date_of now - 14 <=? date s) sessions in
  let risks :=
    [("sentiment_risk", _assess_sentiment_risk recent_sessions);
     ("productivity_risk", _assess_productivity_risk items recent_sessions);
     ("communication_risk", _assess_communication_risk recent_sessions);
     ("workload_risk", _assess_workload_risk recent_sessions);
     ("consistency_risk", _assess_consistency_risk recent_sessions)] in
  let risk_scores := omap (fun nr => score_of (snd nr)) risks in
  let overall_risk :=
    match risk_scores with
    | [] => 0%Q
    | _ => (sumQ risk_scores / inject_Z (len risk_scores))%Q
    end in
  {| overall_risk_score := py_round overall_risk 2;
     risk_level := if Qltb (7 # 10) overall_risk then "high"
                   else if Qltb (4 # 10) overall_risk then "medium" else "low";
     individual_risks := risks;
     risk_factors := _identify_risk_factors risks;
     assessment_date := now |}.

End RiskAssessment.

(** ** dashboard/early_warning_system.py: further checks and the monitor *)

Module HealthMonitoring.
Import EarlyWarningSystem.

Definition _check_engagement_drop (st : Store) (now wall : Z) (project : Z)
  : list alert_item * Store :=
  let team_size :=
    len (List.filter (fun m => (member_project m =? project) && is_active m)
                     (team_members st)) in
  if team_size =? 0 then ([], st)
  else
    let end_date := date_of now in
    let start_date := end_date - 14 in
    let expected_sessions := team_size * 14 in
    let actual_sessions :=
      len (List.filter (fun s => (Models.project s =? project) &&
                                 (start_date <=? date s) &&
                                 String.eqb (status s) "completed")
                       (sessions st)) in
    let participation_rate :=
      (inject_Z actual_sessions / inject_Z (Z.max expected_sessions 1))%Q in
    if Qltb participation_rate PARTICIPATION_THRESHOLD then
      let severity := if Qltb participation_rate (4 # 10) then "high" else "medium" in
      let '(alert, st') :=
        _create_alert st now wall project "engagement_drop" severity
          (1 - participation_rate)
          (list_to_map [("participation_rate", PyNum participation_rate);
                        ("actual_sessions", PyInt actual_sessions);
                        ("expected_sessions", PyInt expected_sessions);
                        ("team_size", PyInt team_size)])
          None in
      ([alert], st')
    else ([], st).

Definition _check_productivity_concern (st : Store) (now wall : Z) (project : Z)
  : list alert_item * Store :=
  let end_date := date_of now in
  let start_date := end_date - 14 in
  let recent_sessions :=
    List.filter (fun s => (Models.project s =? project) &&
                          (start_date <=? date s) &&
                          String.eqb (status s) "completed")
                (sessions st) in
  if len recent_sessions <? 5 then ([], st)
  else
    let low_content_sessions :=
      len (List.filter (fun session => Qltb (_assess_content_quality session) (3 # 10))
                       recent_sessions) in
    let low_content_rate :=
      (inject_Z low_content_sessions / inject_Z (len recent_sessions))%Q in
    if Qltb (4 # 10) low_content_rate then
      let '(alert, st') :=
        _create_alert st now wall project "productivity_concern" "medium"
          low_content_rate
          (list_to_map [("low_content_rate", PyNum low_content_rate);
                        ("low_content_sessions", PyInt low_content_sessions);
                        ("total_sessions", PyInt (len recent_sessions))])
          None in
      ([alert], st')
    else ([], st).

(** [x or 0] for an optional float. *)
Definition or_zero (o : option Q) : pyval :=
  match o with
  | Some q => if Qeq_bool q 0 then PyInt 0 else PyNum q
  | None => PyInt 0
  end.

Definition _analyse_team_status (st : Store) (now : Z) (project : Z)
  : gmap string pyval :=
  let end_date := date_of now in
  let start_date := end_date - 14 in
  let recent_sessions :=
    List.filter (fun s => (Models.project s =? project) &&
                          (start_date <=? date s) &&
                          String.eqb (status s) "completed")
                (sessions st) in
  let team_size :=
    len (List.filter (fun m => (member_project m =? project) && is_active m)
                     (team_members st)) in
  list_to_map
    [("team_size", PyInt team_size);
     ("recent_sessions", PyInt (len recent_sessions));
     ("avg_sentiment", or_zero (Avg (List.map sentiment_score recent_sessions)));
     ("participation_rate",
      PyNum (inject_Z (len recent_sessions) / inject_Z (Z.max (team_size * 14) 1))%Q);
     ("active_alerts",
      PyInt (len (List.filter (fun a => (alert_project a =? project) &&
                                        String.eqb (alert_status a) "active")
                              (alerts st))))].

Record Project : Type := {
  project_id : Z;
  project_name : string;
  project_status : string
}.

(** What a call of one alert processor does: it raises, or it returns
    its list of items; either way it may have written to the store. *)
Inductive check_outcome : Type :=
  | Raised
  | Returned (alerts : list alert_item).

(** An entry of [self.alert_processors]: its name and its function of
    the store, the two clocks and the project. *)
Definition processor : Type :=
  string * (Store -> Z -> Z -> Z -> check_outcome * Store).

Record project_results : Type := {
  pr_project : string;
  pr_project_id : Z;
  monitoring_timestamp : Z;
  pr_alerts_generated : list alert_item;
  risk_indicators : list string;
  team_status : gmap string pyval
}.

(** The loop over [self.alert_processors.items()]: an exception of a
    processor is logged and the loop goes on. *)
Fixpoint run_processors (processors : list processor) (now wall project : Z)
    (alerts_generated : list alert_item) (st : Store) : list alert_item * Store :=
  match processors with
  | [] => (alerts_generated, st)
  | (alert_type, checker_func) :: rest =>
      match checker_func st now wall project with
      | (Returned alerts, st') =>
          run_processors rest now wall project (alerts_generated ++ alerts) st'
      | (Raised, st') => run_processors rest now wall project alerts_generated st'
      end
  end.

Definition _monitor_project_health (processors : list processor) (st : Store)
    (now wall : Z) (project : Project) : project_results * Store :=
  let '(alerts_generated, st') :=
    run_processors processors now wall (project_id project) [] st in
  ({| pr_project := project_name project;
      pr_project_id := project_id project;
      monitoring_timestamp := now;
      pr_alerts_generated := alerts_generated;
      risk_indicators := [];
      team_status := _analyse_team_status st' now (project_id project) |}, st').

Record at_risk : Type := {
  risk_project : string;
  risk_alerts : Z;
  risk_critical : Z
}.

Record monitoring_results : Type := {
  projects_monitored : Z;
  alerts_generated : Z;
  critical_alerts : Z;
  warnings_issued : Z;
  projects_at_risk : list at_risk;
  detailed_results : list project_results
}.

(** [a.get('severity') == 'critical'] on an item. *)
Definition is_critical (a : alert_item) : bool :=
  match a with
  | Created _ severity _ => String.eqb severity "critical"
  | Duplicate _ => false
  end.

(** The loop of [run_health_monitoring] over the projects that are left. *)
Fixpoint monitor_loop (processors : list processor) (now wall : Z)
    (projects : list Project) (results : monitoring_results) (st : Store)
  : monitoring_results * Store :=
  match projects with
  | [] => (results, st)
  | proj :: rest =>
      let '(project_results, st') := _monitor_project_health processors st now wall proj in
      let alerts_generated := len (pr_alerts_generated project_results) in
      let critical_alerts :=
        len (List.filter is_critical (pr_alerts_generated project_results)) in
      monitor_loop processors now wall rest
        {| projects_monitored := projects_monitored results;
           alerts_generated := HealthMonitoring.alerts_generated results + alerts_generated;
           critical_alerts := HealthMonitoring.critical_alerts results + critical_alerts;
           warnings_issued := warnings_issued results;
           projects_at_risk :=
             if 0 <? alerts_generated
             then projects_at_risk results
                    ++ [{| risk_project := project_name proj;
                           risk_alerts := alerts_generated;
                           risk_critical := critical_alerts |}]
             else projects_at_risk results;
           detailed_results := detailed_results results ++ [project_results] |}
        st'
  end.

(** [project_table] is the table behind [Project.objects]. *)
Definition run_health_monitoring (processors : list processor)
    (project_table : list Project) (st : Store) (now wall : Z)
    (project : option Project) : monitoring_results * Store :=
  let projects_to_monitor :=
    match project with
    | Some p => [p]
    | None => List.filter (fun p => String.eqb (project_status p) "active") project_table
    end in
  monitor_loop processors now wall projects_to_monitor
    {| projects_monitored := len projects_to_monitor;
       alerts_generated := 0;
       critical_alerts := 0;
       warnings_issued := 0;
       projects_at_risk := [];
       detailed_results := [] |}
    st.

End HealthMonitoring.

(** ** dashboard/early_warning_system.py: AlertNotificationService *)

Module AlertNotificationService.
Import EarlyWarningSystem.

(** [email] stands for [profile.user.email]. *)
Record UserProfile : Type := {
  profile_user : Z;
  role : string;
  email : string
}.

Definition MANAGEMENT_ROLES : list string := ["manager"].

Definition is_manager (p : UserProfile) : bool :=
  existsb (String.eqb (role p)) MANAGEMENT_ROLES.

Definition _get_project_managers (members : list TeamMember)
    (profiles : list UserProfile) (project : Z) : list UserProfile :=
  let team_members :=
    List.filter (fun m => (member_project m =? project) && is_active m) members in
  let managers :=
    omap (fun member =>
            match List.find (fun p => profile_user p =? member_user member) profiles with
            | Some profile => if is_manager profile then Some profile else None
            | None => None
            end) team_members in
  match managers with
  | [] => firstn 1 (List.filter (fun p => existsb (String.eqb (role p)) MANAGEMENT_ROLES)
                                profiles)
  | _ => managers
  end.

Record notification_results : Type := {
  notifications_sent : Z;
  errors : list string;
  recipients : list string
}.

Definition send_alert_notifications (members : list TeamMember)
    (profiles : list UserProfile) (alerts : list TeamHealthAlert) : notification_results :=
  let critical_alerts :=
    List.filter (fun alert => String.eqb (severity alert) "critical" ||
                              String.eqb (severity alert) "high") alerts in
  fold_left
    (fun results alert =>
       let managers := _get_project_managers members profiles (alert_project alert) in
       fold_left
         (fun results manager =>
            {| notifications_sent := notifications_sent results + 1;
               errors := errors results;
               recipients := recipients results ++ [email manager] |})
         managers results)
    critical_alerts
    {| notifications_sent := 0; errors := []; recipients := [] |}.

End AlertNotificationService.

(** ** dashboard/models.py: TeamHealthTrend.is_concerning, and
    dashboard/services.py: get_mvp_metrics *)

Module Dashboard.

Definition is_concerning (self : TeamHealthTrend.row) : bool :=
  let concerning_conditions :=
    [String.eqb (TeamHealthTrend.trend_direction self) "declining" &&
       truthy_lt (TeamHealthTrend.change_percentage self) (-10);
     TeamHealthTrend.anomaly_detected self;
     TeamHealthTrend.alert_threshold_breached self;
     String.eqb (TeamHealthTrend.metric_type self) "participation" &&
       Qltb (TeamHealthTrend.current_value self) 50;
     String.eqb (TeamHealthTrend.metric_type self) "sentiment" &&
       Qltb (TeamHealthTrend.current_value self) (- (3 # 10));
     String.eqb (TeamHealthTrend.metric_type self) "blockers" &&
       Qltb (TeamHealthTrend.current_value self) 70] in
  existsb id concerning_conditions.

(** [today] is [timezone.now().date()].  The result is [None] where
    the composite score raises. *)
Definition get_mvp_metrics (table : list StandupSession) (items : list WorkItemReference)
    (self_project today : Z) (days_back : Z) : option (gmap string (gmap string pyval)) :=
  let end_date := today in
  let start_date := end_date - days_back in
  let metrics : gmap string (gmap string pyval) := ∅ in
  let metrics :=
    <["participation" :=
        MVPTeamHealthService._get_participation_metrics table self_project start_date end_date]>
      metrics in
  let metrics :=
    <["sentiment" :=
        MVPTeamHealthService._get_sentiment_metrics table self_project start_date end_date]>
      metrics in
  let metrics :=
    <["blockers" :=
        MVPTeamHealthService._get_blocker_metrics table self_project start_date end_date]>
      metrics in
  let metrics :=
    <["work_items" :=
        MVPTeamHealthService._get_work_item_metrics table items self_project
          start_date end_date]>
      metrics in
  overall ← MVPTeamHealthService._calculate_overall_health_score metrics;
  Some (<["overall_score" := overall]> metrics).

End Dashboard.

(** * Vocabulary of the statements and sample data

    The predicates the theorems are stated with, the rules as the
    specification words them, and the concrete tables the examples are
    evaluated on. *)

Import PredictiveAnalyticsService MVPTeamHealthService TeamHealthTrend EarlyWarningSystem.

(** ** Slope and forecast *)



Definition by_date_le (p q : Z * Q) : Prop := fst p <= fst q.



(** The (date, score) pairs of the sessions that carry a score. *)
Definition sentiment_data (sessions : list StandupSession) : list (Z * Q) :=
  omap (fun s => match sentiment_score s with
                 | Some sc => Some (date s, sc)
                 | None => None
                 end) sessions.

(** The average of the scores of one day. *)
Definition day_average (ds : Z * list Q) : Z * Q :=
  (fst ds, (sumQ (snd ds) / inject_Z (len (snd ds)))%Q).






(** ** Trend store *)

(** The database constraint [unique_together = ['project',
    'metric_type', 'date']] on a table. *)
Fixpoint unique_together (table : list row) : bool :=
  match table with
  | [] => true
  | r :: rest =>
      negb (existsb (same_key (t_project r) (metric_type r) (t_date r)) rest)
      && unique_together rest
  end.

(** The rows of a series dated strictly before [d]. *)
Definition before (p : Z) (m : string) (d : Z) (r : row) : bool :=
  same_series p m r && (t_date r <? d).

(** One step of [latest]. *)
Definition pick (best : option row) (r : row) : option row :=
  match best with
  | None => Some r
  | Some b => if t_date b <? t_date r then Some r else Some b
  end.

(** The row an upsert writes. *)
Definition fresh (p : Z) (m : string) (d : Z) (cur : Q) (prev chg : option Q)
    (dir : string) (r7 r30 : option Q) (anomaly breached : bool) : row :=
  {| t_project := p; metric_type := m; t_date := d;
     current_value := cur; previous_value := prev; change_percentage := chg;
     trend_direction := dir; rolling_average_7d := r7; rolling_average_30d := r30;
     anomaly_detected := anomaly; alert_threshold_breached := breached |}.

(** The table after an update of the rows of a key. *)
Definition replace_key (p : Z) (m : string) (d : Z) (t : row) (table : list row) :=
  List.map (fun r => if same_key p m d r then t else r) table.

(** The rows of a series dated in [[from, d)]. *)
Definition window (p : Z) (m : string) (d from : Z) (r : row) : bool :=
  same_series p m r && (from <=? t_date r) && (t_date r <? d).

Definition prior_point : row :=
  {| t_project := 1; metric_type := "participation"; t_date := 1;
     current_value := 100; previous_value := None; change_percentage := None;
     trend_direction := "stable"; rolling_average_7d := None;
     rolling_average_30d := None; anomaly_detected := false;
     alert_threshold_breached := false |}.

Definition two_points : list row :=
  [prior_point;
   {| t_project := 1; metric_type := "participation"; t_date := 5;
      current_value := 80; previous_value := Some 100%Q; change_percentage := Some (-20)%Q;
      trend_direction := "declining"; rolling_average_7d := Some 100%Q;
      rolling_average_30d := Some 100%Q; anomaly_detected := false;
      alert_threshold_breached := false |}].

(** ** Metric calculators *)

Definition other_project_session : StandupSession :=
  {| session_id := 1; user := 1; project := 2; date := 3; status := "completed";
     yesterday_work := "wrote the parser"; today_plan := "review"; blockers := "";
     sentiment_score := Some (7 # 10) |}.

Definition one_item : list WorkItemReference :=
  [{| standup_session := 1; item_status := "done" |}].


Definition first_half (mid : Z) (l : list StandupSession) : list StandupSession :=
  List.filter (fun s => date s <? mid) l.

Definition second_half (mid : Z) (l : list StandupSession) : list StandupSession :=
  List.filter (fun s => mid <=? date s) l.











(** The display value of a metric as a number. *)
Definition number_of (v : pyval) : option Q :=
  match v with
  | PyInt z => Some (inject_Z z)
  | PyNum q => Some q
  | PyStr _ | PyDate _ => None
  end.

Definition display_value (metrics : gmap string (gmap string pyval))
    (metric_name key : string) : option Q :=
  number_of (metric_get metrics metric_name key).



(** ** Early warning *)

Definition member_of (id usr proj : Z) : TeamMember :=
  {| member_id := id; member_user := usr; member_username := "dev";
     member_project := proj; is_active := true |}.

Definition terse_session (id usr day : Z) (score : Q) : StandupSession :=
  {| session_id := id; user := usr; project := 1; date := day; status := "completed";
     yesterday_work := "same"; today_plan := "same"; blockers := "waiting on review";
     sentiment_score := Some score |}.

(** One member, one completed session in the window: negative
    sentiment, a blocker, two words of content. *)
Definition worn_out : Store :=
  {| sessions := [terse_session 1 7 100 (- (1 # 2))];
     team_members := [member_of 1 7 1];
     alerts := [];
     next_alert_id := 1 |}.

(** Is the burnout score of [m] at or above the threshold? *)
Definition qualifies (st : Store) (now : Z) (m : TeamMember) : bool :=
  BURNOUT_INDICATOR_THRESHOLD <=? _calculate_burnout_score st now m.

Definition active_members (project : Z) (st : Store) : list TeamMember :=
  List.filter (fun m => (member_project m =? project) && is_active m) (team_members st).

(** The active burnout alerts of the project from the last 24 hours. *)
Definition recent_burnout (project now : Z) (st : Store) : list TeamHealthAlert :=
  List.filter (is_recent_active project "team_member_burnout" now) (alerts st).

(** The alert row the burnout check writes for member [m]. *)
Definition burnout_alert (st : Store) (now wall project : Z) (m : TeamMember)
  : TeamHealthAlert :=
  let burnout_score := _calculate_burnout_score st now m in
  {| alert_id := next_alert_id st;
     alert_project := project;
     team_member := Some (member_id m);
     alert_type := "team_member_burnout";
     severity := if 5 <=? burnout_score then "critical" else "high";
     alert_status := "active";
     context_data :=
       list_to_map [("burnout_score", PyInt burnout_score);
                    ("member_id", PyInt (member_id m));
                    ("member_username", PyStr (member_username m))];
     confidence_score := py_min 1 (inject_Z burnout_score / 5);
     created_at := wall |}.

(** The store after the alert [a] is inserted. *)
Definition with_alert (st : Store) (a : TeamHealthAlert) : Store :=
  {| sessions := sessions st;
     team_members := team_members st;
     alerts := alerts st ++ [a];
     next_alert_id := next_alert_id st + 1 |}.

(** Two members of project 1, each with one terse, blocked, negative
    session in the window. *)
Definition two_worn_out : Store :=
  {| sessions := [terse_session 1 7 100 (- (1 # 2)); terse_session 2 8 99 (- (4 # 10))];
     team_members := [member_of 1 7 1; member_of 2 8 1];
     alerts := [];
     next_alert_id := 1 |}.

Definition plain_session (id day : Z) (st : string) (score : option Q) : StandupSession :=
  {| session_id := id; user := id; project := 1; date := day; status := st;
     yesterday_work := "worked on the importer"; today_plan := "continue";
     blockers := ""; sentiment_score := score |}.

(** Ten sessions of project 1 on the days 87 to 96, the first eight
    completed with sentiment 0.2, the last two pending. *)
Definition low_morale : Store :=
  {| sessions :=
       List.map (fun i => plain_session i (86 + i)
                            (if i <=? 8 then "completed" else "pending")
                            (if i <=? 8 then Some (2 # 10) else None))
                (seqZ 1 10);
     team_members := [];
     alerts := [];
     next_alert_id := 1 |}.

Definition is_critical_or_high (item : alert_item) : bool :=
  match item with
  | Created _ sev _ => String.eqb sev "critical" || String.eqb sev "high"
  | Duplicate _ => false
  end.

(** The same eight sessions, all in the newer half of the window: the
    check writes nothing at all. *)
Definition low_morale_late : Store :=
  {| sessions :=
       List.map (fun i => plain_session i (92 + i) "completed" (Some (2 # 10))) (seqZ 1 8);
     team_members := [];
     alerts := [];
     next_alert_id := 1 |}.


(** ** Further vocabulary *)

Import RiskAssessment HealthMonitoring AlertNotificationService Dashboard.

(** A number within the bounds [lo] and [hi]. *)
Definition within (lo hi x : Q) : Prop := (lo <= x)%Q /\ (x <= hi)%Q.

(** Does the session carry a sentiment score? *)
Definition scored (s : StandupSession) : Prop := sentiment_score s <> None.

(** A risk dict whose score is a number within [0,1]. *)
Definition unit_score (risk : gmap string pyval) : Prop :=
  exists q, score_of risk = Some q /\ within 0 1 q.

(** One session of user 1 on day 100: very negative, blocked and
    stuck, a few words, no work item. *)
Definition stuck_session : StandupSession :=
  {| session_id := 1; user := 1; project := 1; date := 100; status := "completed";
     yesterday_work := "meetings"; today_plan := "more meetings";
     blockers := "Stuck on the build, URGENT"; sentiment_score := Some (1 # 10) |}.

(** A property of the severity and the confidence of every alert that
    an item reports as created. *)
Definition created_with (P : string -> Q -> Prop) (item : alert_item) : Prop :=
  match item with
  | Created _ sev conf => P sev conf
  | Duplicate _ => True
  end.

Definition is_duplicate (item : alert_item) : Prop :=
  match item with
  | Created _ _ _ => False
  | Duplicate _ => True
  end.

(** A check of this development as an entry of [self.alert_processors]:
    it returns its items and does not raise. *)
Definition returned (check : Store -> Z -> Z -> Z -> list alert_item * Store)
  : Store -> Z -> Z -> Z -> check_outcome * Store :=
  fun st now wall project =>
    let '(items, st') := check st now wall project in (Returned items, st').

(** A processor that raises before it writes anything. *)
Definition failing_check : Store -> Z -> Z -> Z -> check_outcome * Store :=
  fun st _ _ _ => (Raised, st).

(** The four checks embedded here, in the order of [alert_processors]. *)
Definition embedded_processors : list processor :=
  [("sentiment_decline", returned _check_sentiment_decline);
   ("engagement_drop", returned _check_engagement_drop);
   ("productivity_concern", returned _check_productivity_concern);
   ("team_member_burnout", returned _check_team_member_burnout)].

(** A second run of [check], on the store the first run leaves and at
    the same [now], writes nothing and returns as many items as the
    first, all of them duplicates. *)
Definition repeats_as_duplicates
    (check : Store -> Z -> Z -> Z -> list alert_item * Store)
    (st : Store) (now wall wall' project : Z) : Prop :=
  let r1 := check st now wall project in
  let r2 := check (snd r1) now wall' project in
  snd r2 = snd r1 /\
  length (fst r2) = length (fst r1) /\
  Forall is_duplicate (fst r2).

Definition project_one : Project :=
  {| project_id := 1; project_name := "Apollo"; project_status := "active" |}.

(** Is the alert one that [send_alert_notifications] handles? *)
Definition urgent (alert : TeamHealthAlert) : bool :=
  String.eqb (severity alert) "critical" || String.eqb (severity alert) "high".

(** The e-mail addresses [send_alert_notifications] writes to, alert
    by alert. *)
Definition addressed (members : list TeamMember) (profiles : list UserProfile)
    (alerts : list TeamHealthAlert) : list string :=
  flat_map (fun alert =>
              List.map email (_get_project_managers members profiles (alert_project alert)))
           (List.filter urgent alerts).

Definition profile_of (usr : Z) (r mail : string) : UserProfile :=
  {| profile_user := usr; role := r; email := mail |}.

Definition alert_of (id proj : Z) (sev : string) : TeamHealthAlert :=
  {| alert_id := id; alert_project := proj; team_member := None;
     alert_type := "sentiment_decline"; severity := sev; alert_status := "active";
     context_data := ∅; confidence_score := 1; created_at := 0 |}.

(** The percentage [calculate_trend] computes against the previous
    value: none without a previous value or against 0. *)
Definition percent_change (v : Q) (prev : option Q) : option Q :=
  match prev with
  | Some pv => if negb (Qeq_bool pv 0) then Some ((v - pv) / pv * 100)%Q else None
  | None => None
  end.

(** The value of the latest row of the series dated before [d]. *)
Definition value_before (table : list row) (p : Z) (m : string) (d : Z) : option Q :=
  current_value <$> latest (List.filter (before p m d) table).

(** The number shown under [key] in the dict of one metric. *)
Definition shown (result : gmap string pyval) (key : string) : option Q :=
  number_of (default (PyInt 0) (result !! key)).

(** Sentiment scores as the standup view stores them: within [0,1]. *)
Definition unit_sentiment (table : list StandupSession) : Prop :=
  forall s q, In s table -> sentiment_score s = Some q -> within 0 1 q.

(** The relations between the counters of a monitoring result. *)
Definition summary_consistent (r : monitoring_results) : Prop :=
  alerts_generated r
  = sumZ (List.map (fun d => len (pr_alerts_generated d)) (detailed_results r)) /\
  alerts_generated r = sumZ (List.map risk_alerts (projects_at_risk r)) /\
  critical_alerts r = sumZ (List.map risk_critical (projects_at_risk r)) /\
  0 <= critical_alerts r <= alerts_generated r /\
  Forall (fun a => 0 < risk_alerts a /\ 0 <= risk_critical a <= risk_alerts a)
         (projects_at_risk r).

(** A check that decides from the session and member tables alone
    whether to call [_create_alert] once, and with what. *)
Definition single_shot (check : Store -> Z -> Z -> Z -> list alert_item * Store)
    (type : string) (now project : Z) (st : Store) : Prop :=
  exists decision : option (string * Q * gmap string pyval),
    forall st' w,
      sessions st' = sessions st -> team_members st' = team_members st ->
      check st' now w project
      = match decision with
        | Some (sev, conf, ctx) =>
            let '(alert, st'') := _create_alert st' now w project type sev conf ctx None in
            ([alert], st'')
        | None => ([], st')
        end.

(** Case analysis on every condition of a chain of [if]s. *)
Ltac split_ifs :=
  repeat match goal with
         | |- context [if ?c then _ else _] => destruct c
         end.

(** * Facts about the arithmetic helpers *)

Lemma Qltb_lt (x y : Q) : Qltb x y = true <-> (x < y)%Q.
Proof. unfold Qltb, Qlt. apply Z.ltb_lt. Qed.

Lemma Qltb_ge (x y : Q) : Qltb x y = false <-> (y <= x)%Q.
Proof. unfold Qltb, Qle. apply Z.ltb_ge. Qed.

Lemma Qleb_le (x y : Q) : Qleb x y = true <-> (x <= y)%Q.
Proof. unfold Qleb, Qle. apply Z.leb_le. Qed.


Lemma fold_sumQ (l : list Q) (acc : Q) :
  (fold_left Qplus l acc == acc + sumQ l)%Q.
Proof.
  unfold sumQ. revert acc.
  induction l as [|x l IH]; intros acc; simpl.
  - ring.
  - rewrite IH, (IH (0 + x)%Q). ring.
Qed.

Lemma sumQ_cons (x : Q) (l : list Q) : (sumQ (x :: l) == x + sumQ l)%Q.
Proof. unfold sumQ at 1. simpl. rewrite fold_sumQ. ring. Qed.

Lemma fold_sumZ (l : list Z) (acc : Z) : fold_left Z.add l acc = acc + sumZ l.
Proof.
  unfold sumZ. revert acc.
  induction l as [|x l IH]; intros acc; simpl; [lia|].
  rewrite IH, (IH (0 + x)). lia.
Qed.

Lemma sumZ_cons (x : Z) (l : list Z) : sumZ (x :: l) = x + sumZ l.
Proof. unfold sumZ at 1. simpl. rewrite fold_sumZ. lia. Qed.

Lemma sumZ_app (l k : list Z) : sumZ (l ++ k) = sumZ l + sumZ k.
Proof.
  induction l as [|x l IH]; simpl.
  - unfold sumZ at 2. simpl. lia.
  - rewrite !sumZ_cons, IH. lia.
Qed.

(** * The least-squares slope *)

Section TrendSlope.













End TrendSlope.

(** * The sentiment forecast on a rising history *)

Section SentimentForecast.















End SentimentForecast.

(** * The trend store: [TeamHealthTrend.calculate_trend] *)

Section TrendStore.

Lemma same_key_eq p m d r :
  same_key p m d r = true <-> t_project r = p /\ metric_type r = m /\ t_date r = d.
Proof.
  unfold same_key, same_series.
  rewrite !andb_true_iff, !Z.eqb_eq, String.eqb_eq. tauto.
Qed.

Lemma unique_key_rows table p m d :
  unique_together table = true ->
  (length (List.filter (same_key p m d) table) <= 1)%nat.
Proof.
  induction table as [|r rest IH]; simpl; [lia|].
  rewrite andb_true_iff, negb_true_iff. intros [Hr Hrest].
  destruct (same_key p m d r) eqn:Hk; [|now apply IH].
  apply same_key_eq in Hk as (<- & <- & <-).
  simpl. destruct (List.filter _ rest) as [|r' l] eqn:Hf; [simpl; lia|].
  exfalso. assert (Hin : In r' (List.filter (same_key (t_project r) (metric_type r) (t_date r)) rest))
    by (rewrite Hf; now left).
  apply List.filter_In in Hin as [Hin Hk'].
  assert (existsb (same_key (t_project r) (metric_type r) (t_date r)) rest = true)
    by (apply List.existsb_exists; eauto).
  congruence.
Qed.

(** ** What [latest] returns *)

Lemma fold_pick_spec rows best :
  match fold_left pick rows best with
  | None => best = None /\ rows = []
  | Some r =>
      (best = Some r \/ In r rows) /\
      (forall b, best = Some b -> t_date b <= t_date r) /\
      (forall r', In r' rows -> t_date r' <= t_date r)
  end.
Proof.
  revert best. induction rows as [|x rows IH]; intros best; simpl.
  - destruct best as [b|]; [|tauto].
    split; [now left|]. split; [intros ? [= ->]; lia | tauto].
  - specialize (IH (pick best x)).
    destruct (fold_left pick rows (pick best x)) as [r|].
    + destruct IH as (Hin & Hbest & Hall). split; [|split].
      * destruct Hin as [Hp|Hin]; [|tauto].
        unfold pick in Hp. destruct best as [b|]; [|injection Hp as ->; tauto].
        destruct (t_date b <? t_date x); injection Hp as ->; tauto.
      * intros b ->. simpl in Hbest.
        destruct (Z.ltb_spec (t_date b) (t_date x)).
        -- specialize (Hbest x eq_refl). lia.
        -- exact (Hbest b eq_refl).
      * intros r' [->|Hr']; [|now apply Hall].
        unfold pick in Hbest. destruct best as [b|]; [|exact (Hbest r' eq_refl)].
        destruct (Z.ltb_spec (t_date b) (t_date r')).
        -- exact (Hbest r' eq_refl).
        -- specialize (Hbest b eq_refl). lia.
    + destruct IH as [Hp _]. unfold pick in Hp.
      destruct best as [b|]; [destruct (t_date b <? t_date x)|]; discriminate.
Qed.

Lemma latest_spec rows :
  match latest rows with
  | None => rows = []
  | Some r => In r rows /\ forall r', In r' rows -> t_date r' <= t_date r
  end.
Proof.
  pose proof (fold_pick_spec rows None) as H. unfold latest. fold pick.
  destruct (fold_left pick rows None) as [r|].
  - destruct H as ([?|?] & _ & ?); [discriminate|tauto].
  - tauto.
Qed.

(** ** The upsert *)

Lemma filter_key_replace p m d t table :
  same_key p m d t = true ->
  List.filter (same_key p m d) (replace_key p m d t table)
  = List.map (fun _ => t) (List.filter (same_key p m d) table).
Proof.
  intros Ht. induction table as [|r rest IH]; simpl; [reflexivity|].
  destruct (same_key p m d r) eqn:Hr; simpl.
  - now rewrite Ht, IH.
  - now rewrite Hr, IH.
Qed.

Lemma filter_other_replace (q : row -> bool) p m d t table :
  q t = false -> (forall r, q r = true -> same_key p m d r = false) ->
  List.filter q (replace_key p m d t table) = List.filter q table.
Proof.
  intros Ht Hq. induction table as [|r rest IH]; simpl; [reflexivity|].
  destruct (same_key p m d r) eqn:Hr.
  - rewrite Ht, IH. destruct (q r) eqn:Hqr; [|reflexivity].
    apply Hq in Hqr. congruence.
  - now rewrite IH.
Qed.

Lemma replace_key_fixed p m d t table :
  (forall r, In r table -> same_key p m d r = true -> r = t) ->
  replace_key p m d t table = table.
Proof.
  intros H. induction table as [|r rest IH]; simpl; [reflexivity|].
  rewrite IH by (intros; apply H; [now right | assumption]).
  destruct (same_key p m d r) eqn:Hr; [|reflexivity].
  now rewrite (H r (or_introl eq_refl) Hr).
Qed.

Lemma key_rows_all (p : Z) (m : string) (d : Z) (t : row) table :
  List.filter (same_key p m d) table = [t] ->
  forall r, In r table -> same_key p m d r = true -> r = t.
Proof.
  intros Hf r Hin Hk.
  assert (In r (List.filter (same_key p m d) table)) by (apply List.filter_In; tauto).
  rewrite Hf in H. destruct H as [<-|[]]. reflexivity.
Qed.

(** An upsert under the uniqueness constraint succeeds, leaves one row
    for the key, and changes no row the predicate [q] selects when [q]
    selects no row of the key. *)
Lemma update_or_create_spec table p m d cur prev chg dir r7 r30 :
  (length (List.filter (same_key p m d) table) <= 1)%nat ->
  exists anomaly breached,
    let t := fresh p m d cur prev chg dir r7 r30 anomaly breached in
    exists table',
      update_or_create table p m d cur prev chg dir r7 r30 = Ok t table' /\
      List.filter (same_key p m d) table' = [t] /\
      forall q : row -> bool,
        (forall r, q r = true -> same_key p m d r = false) ->
        List.filter q table' = List.filter q table.
Proof.
  intros Hlen. unfold update_or_create.
  assert (Hkey : forall a b, same_key p m d (fresh p m d cur prev chg dir r7 r30 a b) = true)
    by (intros; apply same_key_eq; simpl; tauto).
  destruct (List.filter (same_key p m d) table) as [|old [|? ?]] eqn:Hf;
    [| |simpl in Hlen; lia].
  - exists false, false. cbv zeta. eexists. split; [reflexivity|]. split.
    + rewrite List.filter_app, Hf. simpl. fold (fresh p m d cur prev chg dir r7 r30 false false).
      now rewrite Hkey.
    + intros q Hq. rewrite List.filter_app. simpl.
      fold (fresh p m d cur prev chg dir r7 r30 false false).
      destruct (q (fresh p m d cur prev chg dir r7 r30 false false)) eqn:Hqt.
      * apply Hq in Hqt. rewrite Hkey in Hqt. discriminate.
      * apply app_nil_r.
  - exists (anomaly_detected old), (alert_threshold_breached old). cbv zeta.
    eexists. split; [reflexivity|].
    fold (fresh p m d cur prev chg dir r7 r30 (anomaly_detected old)
                (alert_threshold_breached old)).
    fold (replace_key p m d (fresh p m d cur prev chg dir r7 r30 (anomaly_detected old)
                (alert_threshold_breached old)) table).
    split.
    + rewrite filter_key_replace by apply Hkey. now rewrite Hf.
    + intros q Hq. apply filter_other_replace; [|exact Hq].
      destruct (q _) eqn:Hqt; [|reflexivity]. apply Hq in Hqt. rewrite Hkey in Hqt.
      discriminate.
Qed.

(** Repeating the upsert with the same values on a table whose row for
    the key already holds them changes nothing. *)
Lemma update_or_create_again table p m d cur prev chg dir r7 r30 anomaly breached :
  List.filter (same_key p m d) table
  = [fresh p m d cur prev chg dir r7 r30 anomaly breached] ->
  update_or_create table p m d cur prev chg dir r7 r30
  = Ok (fresh p m d cur prev chg dir r7 r30 anomaly breached) table.
Proof.
  intros Hf. unfold update_or_create. rewrite Hf. cbn [anomaly_detected alert_threshold_breached fresh].
  fold (fresh p m d cur prev chg dir r7 r30 anomaly breached).
  f_equal.
  apply (replace_key_fixed p m d). now apply key_rows_all.
Qed.

(** ** [calculate_trend] reads only the rows dated before [date] *)

Lemma calculate_trend_reads table today p m v date :
  let d := match date with Some d => d | None => today end in
  exists chg dir r7 r30,
    let prev := current_value <$> latest (List.filter (before p m d) table) in
    dir <> "volatile" /\
    forall table',
      List.filter (before p m d) table' = List.filter (before p m d) table ->
      List.filter (window p m d (d - 7)) table'
      = List.filter (window p m d (d - 7)) table ->
      List.filter (window p m d (d - 30)) table'
      = List.filter (window p m d (d - 30)) table ->
      calculate_trend table' today p m v date
      = update_or_create table' p m d v prev chg dir r7 r30.
Proof.
  intros d.
  destruct (current_value <$> latest (List.filter (before p m d) table)) as [pv|] eqn:Hprev;
    [destruct (negb (Qeq_bool pv 0)) eqn:Hnz|].
  - eexists _, _, _, _. cbv zeta. split; cycle 1.
    + intros table' H1 H2 H3. unfold calculate_trend. fold d.
      fold (before p m d). fold (window p m d (d - 7)). fold (window p m d (d - 30)).
      rewrite H1, H2, H3, Hprev, Hnz. reflexivity.
    + destruct (Qltb 5 _) eqn:E1; [discriminate|].
      destruct (Qltb _ (-5)) eqn:E2; [discriminate|].
      destruct (Qltb 15 _) eqn:E3; [|discriminate].
      exfalso. apply Qltb_ge in E1, E2. apply Qltb_lt in E3.
      revert E3. apply Qle_not_lt. apply Qabs_Qle_condition. split; lra.
  - eexists _, _, _, _. cbv zeta. split; cycle 1.
    + intros table' H1 H2 H3. unfold calculate_trend. fold d.
      fold (before p m d). fold (window p m d (d - 7)). fold (window p m d (d - 30)).
      rewrite H1, H2, H3, Hprev, Hnz. reflexivity.
    + discriminate.
  - eexists _, _, _, _. cbv zeta. split; cycle 1.
    + intros table' H1 H2 H3. unfold calculate_trend. fold d.
      fold (before p m d). fold (window p m d (d - 7)). fold (window p m d (d - 30)).
      rewrite H1, H2, H3, Hprev. reflexivity.
    + discriminate.
Qed.

Lemma update_or_create_direction table p m d cur prev chg dir r7 r30 t table' :
  update_or_create table p m d cur prev chg dir r7 r30 = Ok t table' ->
  trend_direction t = dir /\ current_value t = cur /\ previous_value t = prev.
Proof.
  unfold update_or_create.
  destruct (List.filter (same_key p m d) table) as [|old [|? ?]]; intros [= <- _] || discriminate;
    repeat split.
Qed.

(** The branch that stores 'volatile' is never taken: it is tested after
    the two branches for a change above 5 and below -5. *)
Lemma calculate_trend_never_volatile table today p m v date t table' :
  calculate_trend table today p m v date = Ok t table' ->
  trend_direction t <> "volatile".
Proof.
  destruct (calculate_trend_reads table today p m v date) as (chg & dir & r7 & r30 & Hdir & Hc).
  rewrite (Hc table eq_refl eq_refl eq_refl). intros Hu.
  apply update_or_create_direction in Hu as (-> & _). exact Hdir.
Qed.

(** C6 fails on the code.  With the prior point 100 and the new value
    120 the change is 20 percent, above 15 in absolute value, and the
    stored direction is 'improving', not 'volatile'. *)
Theorem calculate_trend_rise_of_20_percent :
  exists t table' cp,
    calculate_trend [prior_point] 0 1 "participation" 120 (Some 2) = Ok t table' /\
    previous_value t = Some (current_value prior_point) /\
    change_percentage t = Some cp /\ (cp == 20)%Q /\ (15 < Qabs cp)%Q /\
    trend_direction t = "improving".
Proof.
  eexists _, _, _. split; [vm_compute; reflexivity|]. repeat split; reflexivity.
Qed.

(** C7.  Under the uniqueness constraint of the table, a call of
    [calculate_trend] succeeds and leaves exactly one row for the key,
    holding the value given; the same call repeated returns the same
    row and leaves the table as it is; and the row's [previous_value]
    is the value of the latest row of the series dated strictly before
    the date ([None] if there is none), a row of the table as it was
    before the first call. *)
Theorem calculate_trend_idempotent table today p m v date :
  unique_together table = true ->
  let d := match date with Some d => d | None => today end in
  exists t table1,
    calculate_trend table today p m v date = Ok t table1 /\
    calculate_trend table1 today p m v date = Ok t table1 /\
    List.filter (same_key p m d) table1 = [t] /\
    current_value t = v /\
    match previous_value t with
    | Some pv =>
        exists r, In r table /\ same_series p m r = true /\ t_date r < d /\
                  current_value r = pv /\
                  forall r', In r' table -> same_series p m r' = true -> t_date r' < d ->
                             t_date r' <= t_date r
    | None => forall r, In r table -> same_series p m r = true -> ~ (t_date r < d)
    end.
Proof.
  intros Hu d.
  destruct (calculate_trend_reads table today p m v date)
    as (chg & dir & r7 & r30 & _ & Hc). fold d in Hc. cbv zeta in Hc.
  set (prev := current_value <$> latest (List.filter (before p m d) table)) in *.
  destruct (update_or_create_spec table p m d v prev chg dir r7 r30
              (unique_key_rows table p m d Hu))
    as (anomaly & breached & table1 & Hcreate & Hkey & Hother).
  assert (Hpast : forall q : row -> bool,
             (forall r, q r = true -> (t_date r <? d) = true) ->
             List.filter q table1 = List.filter q table).
  { intros q Hq. apply Hother. intros r Hr. apply Hq in Hr.
    destruct (same_key p m d r) eqn:Hk; [|reflexivity].
    apply same_key_eq in Hk as (_ & _ & Hk). apply Z.ltb_lt in Hr. lia. }
  exists (fresh p m d v prev chg dir r7 r30 anomaly breached), table1.
  split; [|split; [|split; [|split]]].
  - rewrite (Hc table eq_refl eq_refl eq_refl). exact Hcreate.
  - rewrite (Hc table1).
    + now apply update_or_create_again.
    + apply Hpast. unfold before. intros r Hr. now apply andb_true_iff in Hr.
    + apply Hpast. unfold window. intros r Hr. now apply andb_true_iff in Hr.
    + apply Hpast. unfold window. intros r Hr. now apply andb_true_iff in Hr.
  - exact Hkey.
  - reflexivity.
  - simpl previous_value. subst prev.
    pose proof (latest_spec (List.filter (before p m d) table)) as Hl.
    destruct (latest (List.filter (before p m d) table)) as [r|]; simpl.
    + destruct Hl as [Hin Hmax]. apply List.filter_In in Hin as [Hin Hb].
      unfold before in Hb. apply andb_true_iff in Hb as [Hs Hd]. apply Z.ltb_lt in Hd.
      exists r. repeat split; try assumption.
      intros r' Hin' Hs' Hd'. apply Hmax. apply List.filter_In. split; [assumption|].
      unfold before. rewrite Hs'. now apply Z.ltb_lt.
    + intros r Hin Hs Hd.
      assert (In r (List.filter (before p m d) table)).
      { apply List.filter_In. split; [assumption|]. unfold before. rewrite Hs.
        now apply Z.ltb_lt. }
      rewrite Hl in H. contradiction.
Qed.

Lemma calculate_trend_idempotent_witness :
  unique_together two_points = true /\
  exists t table1,
    calculate_trend two_points 9 1 "participation" 90 (Some 5) = Ok t table1 /\
    calculate_trend table1 9 1 "participation" 90 (Some 5) = Ok t table1 /\
    List.filter (same_key 1 "participation" 5) table1 = [t] /\
    current_value t = 90%Q /\
    match previous_value t with
    | Some pv =>
        exists r, In r two_points /\ same_series 1 "participation" r = true /\
                  t_date r < 5 /\ current_value r = pv /\
                  forall r', In r' two_points -> same_series 1 "participation" r' = true ->
                             t_date r' < 5 -> t_date r' <= t_date r
    | None => forall r, In r two_points -> same_series 1 "participation" r = true ->
                        ~ (t_date r < 5)
    end.
Proof.
  split; [reflexivity|].
  apply (calculate_trend_idempotent two_points 9 1 "participation" 90 (Some 5)).
  reflexivity.
Defined.

End TrendStore.

(** * The metric calculators of [MVPTeamHealthService] *)

Section MetricCalculators.

(** ** Empty date ranges *)

Lemma no_items_without_sessions table items p start_date end_date :
  sessions_in_range table p start_date end_date = [] ->
  List.filter (item_session_test table
                 (fun s => (project s =? p) && (start_date <=? date s) &&
                           (date s <=? end_date))) items = [].
Proof.
  intros Hempty. induction items as [|w items IH]; simpl; [reflexivity|].
  rewrite IH. unfold item_session_test, session_of.
  destruct (List.find _ table) as [s|] eqn:Hfind; [|reflexivity].
  destruct ((project s =? p) && (start_date <=? date s) && (date s <=? end_date)) eqn:Hin;
    [|reflexivity].
  apply List.find_some in Hfind as [Hs _].
  assert (In s (sessions_in_range table p start_date end_date))
    by (apply List.filter_In; split; assumption).
  rewrite Hempty in H. contradiction.
Qed.

(** C3, as stated, fails: on an empty table the sentiment calculator
    answers with status 'neutral' and with no [data_points] entry. *)
Lemma empty_range_counterexample :
  sessions_in_range [] 1 0 7 = [] /\
  let r := _get_sentiment_metrics [] 1 0 7 in
  ~ ((r !! "status" = Some (PyStr "no_data") \/ r !! "status" = Some (PyStr "concerning"))
     /\ r !! "data_points" = Some (PyInt 0)).
Proof.
  split; [reflexivity|]. cbv zeta. intros [_ H]. vm_compute in H. discriminate.
Qed.

(** C3, amended.  On a date range without sessions each calculator
    returns, without raising, a dict of three entries: the value 0, the
    trend 'no_data', and a status that is 'concerning' for participation
    and blockers, 'neutral' for sentiment and 'no_data' for work items.
    None of the four carries a [data_points] entry. *)
Theorem empty_range_metrics table items p start_date end_date :
  sessions_in_range table p start_date end_date = [] ->
  _get_participation_metrics table p start_date end_date
  = dict [("rate", PyInt 0); ("trend", PyStr "no_data"); ("status", PyStr "concerning")] /\
  _get_sentiment_metrics table p start_date end_date
  = dict [("score", PyInt 0); ("trend", PyStr "no_data"); ("status", PyStr "neutral")] /\
  _get_blocker_metrics table p start_date end_date
  = dict [("resolution_rate", PyInt 0); ("trend", PyStr "no_data");
          ("status", PyStr "concerning")] /\
  _get_work_item_metrics table items p start_date end_date
  = dict [("completion_rate", PyInt 0); ("trend", PyStr "no_data");
          ("status", PyStr "no_data")] /\
  _get_participation_metrics table p start_date end_date !! "data_points" = None /\
  _get_sentiment_metrics table p start_date end_date !! "data_points" = None /\
  _get_blocker_metrics table p start_date end_date !! "data_points" = None /\
  _get_work_item_metrics table items p start_date end_date !! "data_points" = None.
Proof.
  intros Hempty.
  assert (H1 : _get_participation_metrics table p start_date end_date
               = dict [("rate", PyInt 0); ("trend", PyStr "no_data");
                       ("status", PyStr "concerning")])
    by (unfold _get_participation_metrics; now rewrite Hempty).
  assert (H2 : _get_sentiment_metrics table p start_date end_date
               = dict [("score", PyInt 0); ("trend", PyStr "no_data");
                       ("status", PyStr "neutral")])
    by (unfold _get_sentiment_metrics; now rewrite Hempty).
  assert (H3 : _get_blocker_metrics table p start_date end_date
               = dict [("resolution_rate", PyInt 0); ("trend", PyStr "no_data");
                       ("status", PyStr "concerning")])
    by (unfold _get_blocker_metrics; now rewrite Hempty).
  assert (H4 : _get_work_item_metrics table items p start_date end_date
               = dict [("completion_rate", PyInt 0); ("trend", PyStr "no_data");
                       ("status", PyStr "no_data")])
    by (unfold _get_work_item_metrics;
        now rewrite (no_items_without_sessions _ _ _ _ _ Hempty)).
  rewrite H1, H2, H3, H4. repeat split; reflexivity.
Qed.

Lemma empty_range_metrics_witness :
  sessions_in_range [other_project_session] 1 0 7 = [] /\
  (_get_participation_metrics [other_project_session] 1 0 7
   = dict [("rate", PyInt 0); ("trend", PyStr "no_data"); ("status", PyStr "concerning")] /\
   _get_sentiment_metrics [other_project_session] 1 0 7
   = dict [("score", PyInt 0); ("trend", PyStr "no_data"); ("status", PyStr "neutral")] /\
   _get_blocker_metrics [other_project_session] 1 0 7
   = dict [("resolution_rate", PyInt 0); ("trend", PyStr "no_data");
           ("status", PyStr "concerning")] /\
   _get_work_item_metrics [other_project_session] one_item 1 0 7
   = dict [("completion_rate", PyInt 0); ("trend", PyStr "no_data");
           ("status", PyStr "no_data")] /\
   _get_participation_metrics [other_project_session] 1 0 7 !! "data_points" = None /\
   _get_sentiment_metrics [other_project_session] 1 0 7 !! "data_points" = None /\
   _get_blocker_metrics [other_project_session] 1 0 7 !! "data_points" = None /\
   _get_work_item_metrics [other_project_session] one_item 1 0 7 !! "data_points" = None).
Proof.
  split; [reflexivity|].
  apply (empty_range_metrics [other_project_session] one_item 1 0 7). reflexivity.
Defined.

(** ** Trend labels *)








(** ** The composite health score *)




Lemma round_half_even_bounds (y : Q) (lo hi : Z) :
  (inject_Z lo <= y)%Q -> (y <= inject_Z hi)%Q -> lo <= round_half_even y <= hi.
Proof.
  intros Hlo Hhi.
  pose proof (Qfloor_le y) as Hf. pose proof (Qlt_floor y) as Hf'.
  assert (Hlof : lo <= Qfloor y).
  { rewrite <- (Qfloor_Z lo). now apply Qfloor_resp_le. }
  assert (Hfhi : Qfloor y <= hi).
  { rewrite <- (Qfloor_Z hi). now apply Qfloor_resp_le. }
  assert (Hup : (1 # 2 <= y - inject_Z (Qfloor y))%Q -> Qfloor y + 1 <= hi).
  { intros Hr. destruct (Z.eq_dec (Qfloor y) hi) as [E|]; [|lia].
    rewrite E in Hr. lra. }
  unfold round_half_even.
  destruct (Qltb (y - inject_Z (Qfloor y)) (1 # 2)) eqn:E1; [lia|].
  apply Qltb_ge in E1. specialize (Hup E1).
  destruct (Qltb _ _); [lia|]. destruct (Z.even _); lia.
Qed.


Lemma times_weight_number v weight q :
  number_of v = Some q -> times_weight v weight = Some (q * weight)%Q.
Proof. destruct v; simpl; intros [= <-]; reflexivity. Qed.




End MetricCalculators.

(** * The early-warning checks *)

Section EarlyWarning.

(** ** The burnout score *)



Lemma Avg_lower_bound (c : Q) (col : list (option Q)) (a : Q) :
  Forall (fun o => forall q, o = Some q -> (c <= q)%Q) col ->
  Avg col = Some a -> (c <= a)%Q.
Proof.
  intros Hall. unfold Avg.
  assert (Hvs : Forall (fun q => (c <= q)%Q) (omap id col)).
  { induction Hall as [|o col Ho _ IH]; [constructor|].
    destruct o as [q|]; simpl; [constructor; auto | exact IH]. }
  destruct (omap id col) as [|v vs] eqn:E; [discriminate|]. intros [= <-].
  assert (Hsum : forall l, Forall (fun q => (c <= q)%Q) l ->
                           (inject_Z (len l) * c <= sumQ l)%Q).
  { induction 1 as [|x l Hx _ IH].
    - unfold len, sumQ. cbn [length fold_left Z.of_nat].
      change (inject_Z 0) with 0%Q. rewrite Qmult_0_l. apply Qle_refl.
    - rewrite sumQ_cons. unfold len in *. simpl length.
      rewrite Nat2Z.inj_succ, <- Z.add_1_l, inject_Z_plus.
      assert (Hk : ((inject_Z 1 + inject_Z (Z.of_nat (length l))) * c
                    == c + inject_Z (Z.of_nat (length l)) * c)%Q)
        by (change (inject_Z 1) with 1%Q; ring).
      rewrite Hk.
      set (kc := (inject_Z (Z.of_nat (length l)) * c)%Q) in *. lra. }
  specialize (Hsum _ Hvs).
  assert (Hpos : (0 < inject_Z (len (v :: vs)))%Q).
  { change 0%Q with (inject_Z 0). rewrite <- Zlt_Qlt. unfold len. simpl length. lia. }
  apply Qle_shift_div_l; [exact Hpos|]. lra.
Qed.

(** Where no session has a sentiment below -0.3, as on the 0..1 scale
    the rest of the application stores, the score stays within [0,3]. *)
Lemma burnout_score_unit_scale (st : Store) (now : Z) (member : TeamMember) :
  Forall (fun s => forall q, sentiment_score s = Some q -> (- (3 # 10) <= q)%Q)
         (sessions st) ->
  0 <= _calculate_burnout_score st now member <= 3.
Proof.
  intros Hall. unfold _calculate_burnout_score.
  destruct (len _ =? 0); [lia|].
  match goal with
  | |- context [truthy_lt ?o ?b] => assert (Hno : truthy_lt o b = false)
  end.
  { unfold truthy_lt.
    destruct (Avg _) as [a|] eqn:Havg; [|reflexivity].
    apply Avg_lower_bound with (c := (- (3 # 10))%Q) in Havg.
    - apply Qltb_ge in Havg. rewrite Havg. apply andb_false_r.
    - apply Forall_forall. intros o Ho q ->.
      apply list_elem_of_In, List.in_map_iff in Ho as [s [Hs Hin]].
      apply List.filter_In in Hin as [Hin _].
      rewrite Forall_forall in Hall. apply (Hall s); [now apply list_elem_of_In | exact Hs]. }
  rewrite Hno.
  split_ifs; lia.
Qed.

(** ** De-duplication of alerts *)

Lemma first_none (rows : list TeamHealthAlert) : first rows = None -> rows = [].
Proof.
  destruct rows as [|r rows]; [reflexivity|]. unfold first. simpl.
  assert (H : forall l b, fold_left
               (fun best r => match best with
                              | None => Some r
                              | Some b => if comes_before r b then Some r else Some b
                              end) l (Some b) <> None).
  { induction l as [|x l IH]; intros b; simpl; [discriminate|].
    destruct (comes_before x b); apply IH. }
  intros E. now apply H in E.
Qed.

Lemma burnout_score_reads_sessions st st' now m :
  sessions st' = sessions st ->
  _calculate_burnout_score st' now m = _calculate_burnout_score st now m.
Proof. intros H. unfold _calculate_burnout_score. now rewrite H. Qed.

Section BurnoutRun.
(** One run of the burnout check for [project]: [now] is what
    [demo_now()] returns during the run, [wall] the time the database
    stamps on a row it creates.  The stamp is assumed to lie within the
    24 hours that the duplicate test looks back from [now]; with one
    clock, [wall = now]. *)
Variables now wall project : Z.
Hypothesis Hclock : now - 86400 <= wall.

Lemma burnout_loop_existing a members acc st :
  first (recent_burnout project now st) = Some a ->
  burnout_loop now wall project members acc st
  = (acc ++ List.map (fun _ => Duplicate (alert_id a))
                     (List.filter (qualifies st now) members), st).
Proof.
  intros Ha. revert acc.
  induction members as [|m members IH]; intros acc; cbn [burnout_loop List.filter List.map].
  - now rewrite app_nil_r.
  - unfold qualifies at 1.
    destruct (BURNOUT_INDICATOR_THRESHOLD <=? _calculate_burnout_score st now m).
    + unfold _create_alert. fold (recent_burnout project now st). rewrite Ha.
      cbn [List.map]. rewrite IH, <- app_assoc. reflexivity.
    + apply IH.
Qed.

Lemma burnout_alert_recent st m :
  is_recent_active project "team_member_burnout" now (burnout_alert st now wall project m)
  = true.
Proof.
  unfold is_recent_active, burnout_alert. simpl.
  rewrite Z.eqb_refl. simpl. now apply Z.leb_le.
Qed.

Lemma recent_burnout_with_alert st a :
  recent_burnout project now (with_alert st a)
  = recent_burnout project now st
    ++ List.filter (is_recent_active project "team_member_burnout" now) [a].
Proof. unfold recent_burnout, with_alert. simpl alerts. apply List.filter_app. Qed.

Lemma recent_burnout_after_first st m :
  recent_burnout project now st = [] ->
  recent_burnout project now (with_alert st (burnout_alert st now wall project m))
  = [burnout_alert st now wall project m].
Proof.
  intros Hnone. rewrite recent_burnout_with_alert, Hnone.
  cbn [List.filter app]. now rewrite burnout_alert_recent.
Qed.

Lemma create_burnout_alert_fresh st m :
  recent_burnout project now st = [] ->
  let burnout_score := _calculate_burnout_score st now m in
  _create_alert st now wall project "team_member_burnout"
    (if 5 <=? burnout_score then "critical" else "high")
    (py_min 1 (inject_Z burnout_score / 5))
    (list_to_map [("burnout_score", PyInt burnout_score);
                  ("member_id", PyInt (member_id m));
                  ("member_username", PyStr (member_username m))])
    (Some (member_id m))
  = (Created (next_alert_id st)
       (if 5 <=? burnout_score then "critical" else "high")
       (py_min 1 (inject_Z burnout_score / 5)),
     with_alert st (burnout_alert st now wall project m)).
Proof.
  intros Hnone. cbv zeta. unfold _create_alert.
  fold (recent_burnout project now st). rewrite Hnone. reflexivity.
Qed.

Lemma burnout_loop_fresh members acc st :
  recent_burnout project now st = [] ->
  burnout_loop now wall project members acc st
  = match List.filter (qualifies st now) members with
    | [] => (acc, st)
    | m :: rest =>
        let a := burnout_alert st now wall project m in
        (acc ++ Created (alert_id a) (severity a) (confidence_score a)
             :: List.map (fun _ => Duplicate (alert_id a)) rest,
         with_alert st a)
    end.
Proof.
  intros Hnone.
  induction members as [|m members IH]; cbn [burnout_loop List.filter]; [reflexivity|].
  unfold qualifies at 1.
  destruct (BURNOUT_INDICATOR_THRESHOLD <=? _calculate_burnout_score st now m); [|exact IH].
  rewrite (create_burnout_alert_fresh st m Hnone).
  rewrite (burnout_loop_existing (burnout_alert st now wall project m)).
  - cbv zeta. rewrite <- app_assoc. reflexivity.
  - rewrite (recent_burnout_after_first st m Hnone). reflexivity.
Qed.


End BurnoutRun.


(** ** The sentiment-decline check *)

(** C1 fails on the code.  On day 100 the ten sessions of [low_morale]
    are within the last 14 days.  The average 0.2 is not below the
    threshold -0.3, so no critical or high alert is written; the run
    writes a sentiment_decline alert of severity medium through the
    trend branch.  The repeat run an hour later reports it as a
    duplicate. *)
Theorem sentiment_decline_on_low_morale :
  exists conf st1 a,
    _check_sentiment_decline low_morale (100 * 86400) (100 * 86400) 1
    = ([Created 1 "medium" conf], st1) /\
    existsb is_critical_or_high
      (fst (_check_sentiment_decline low_morale (100 * 86400) (100 * 86400) 1)) = false /\
    alerts st1 = [a] /\ alert_type a = "sentiment_decline" /\ severity a = "medium" /\
    _check_sentiment_decline st1 (100 * 86400 + 3600) (100 * 86400 + 3600) 1
    = ([Duplicate 1], st1).
Proof.
  eexists _, _, _. split; [vm_compute; reflexivity|].
  split; [vm_compute; reflexivity|].
  split; [reflexivity|]. split; [reflexivity|]. split; [reflexivity|].
  vm_compute. reflexivity.
Qed.

Lemma late_low_morale_writes_nothing :
  _check_sentiment_decline low_morale_late (100 * 86400) (100 * 86400) 1
  = ([], low_morale_late).
Proof. vm_compute. reflexivity. Qed.

(** The branch for a low average is dead on the 0..1 scale: where no
    session has a sentiment below -0.3, whatever the check creates has
    severity medium. *)
Lemma sentiment_decline_unit_scale (st : Store) (now wall project : Z) :
  Forall (fun s => forall q, sentiment_score s = Some q -> (- (3 # 10) <= q)%Q)
         (sessions st) ->
  forall item,
    In item (fst (_check_sentiment_decline st now wall project)) ->
    match item with
    | Created _ sev _ => sev = "medium"
    | Duplicate _ => True
    end.
Proof.
  intros Hall item. unfold _check_sentiment_decline.
  destruct (len _ <? 5); [intros []|].
  match goal with
  | |- context [Avg (List.map sentiment_score ?l)] =>
      assert (Hlow : forall avg, Avg (List.map sentiment_score l) = Some avg ->
                                 Qltb avg SENTIMENT_DECLINE_THRESHOLD = false);
      [|destruct (Avg (List.map sentiment_score l)) as [avg|]]
  end.
  { intros avg Havg. apply Qltb_ge.
    apply Avg_lower_bound with (c := (- (3 # 10))%Q) in Havg; [exact Havg|].
    apply Forall_forall. intros o Ho q ->.
    apply list_elem_of_In, List.in_map_iff in Ho as [s [Hs Hin]].
    apply List.filter_In in Hin as [Hin _].
    rewrite Forall_forall in Hall. apply (Hall s); [now apply list_elem_of_In | exact Hs]. }
  - rewrite (Hlow avg eq_refl), andb_false_r.
    destruct (match Avg _ with Some _ => _ | None => _ end) as [[o n]|]; [|intros []].
    unfold _create_alert. destruct (first _); simpl; intros [<-|[]]; trivial.
  - destruct (match Avg _ with Some _ => _ | None => _ end) as [[o n]|]; [|intros []].
    unfold _create_alert. destruct (first _); simpl; intros [<-|[]]; trivial.
Qed.

End EarlyWarning.

(** * Further properties of the forecast *)

Section ForecastProperties.








(** ** Rounding and clamping keep bounds *)

Lemma pow10_pos (n : nat) : 0 < pow10 n.
Proof. unfold pow10. apply Z.pow_pos_nonneg; lia. Qed.

Lemma py_round_bounds (n : nat) (lo hi : Z) (x : Q) :
  (inject_Z lo <= x)%Q -> (x <= inject_Z hi)%Q ->
  (inject_Z lo <= py_round x n)%Q /\ (py_round x n <= inject_Z hi)%Q.
Proof.
  intros Hlo Hhi. unfold py_round.
  pose proof (pow10_pos n) as HP.
  assert (HPq : (0 < inject_Z (pow10 n))%Q)
    by (change 0%Q with (inject_Z 0); now rewrite <- Zlt_Qlt).
  destruct (round_half_even_bounds (x * inject_Z (pow10 n)) (lo * pow10 n) (hi * pow10 n))
    as [Hk1 Hk2].
  - rewrite inject_Z_mult. apply Qmult_le_compat_r; [exact Hlo | now apply Qlt_le_weak].
  - rewrite inject_Z_mult. apply Qmult_le_compat_r; [exact Hhi | now apply Qlt_le_weak].
  - set (k := round_half_even (x * inject_Z (pow10 n))) in *.
    rewrite Zle_Qle, inject_Z_mult in Hk1. rewrite Zle_Qle, inject_Z_mult in Hk2.
    split.
    + apply Qle_shift_div_l; assumption.
    + apply Qle_shift_div_r; assumption.
Qed.

Lemma py_round_within_unit (n : nat) (x : Q) : within 0 1 x -> within 0 1 (py_round x n).
Proof.
  intros [H0 H1]. exact (py_round_bounds n 0 1 x H0 H1).
Qed.

Lemma clamp_unit (x : Q) : within 0 1 (py_max 0 (py_min 1 x)).
Proof.
  unfold within, py_max, py_min.
  destruct (Qltb x 1) eqn:E1.
  - apply Qltb_lt in E1. destruct (Qltb 0 x) eqn:E0.
    + apply Qltb_lt in E0. split; lra.
    + split; lra.
  - change (Qltb 0 1) with true. cbv iota. split; lra.
Qed.

Lemma mean_within (lo hi : Q) (l : list Q) :
  l <> [] -> Forall (within lo hi) l -> within lo hi (sumQ l / inject_Z (len l))%Q.
Proof.
  intros Hne Hall.
  assert (Hsum : (inject_Z (len l) * lo <= sumQ l)%Q /\ (sumQ l <= inject_Z (len l) * hi)%Q).
  { clear Hne. induction Hall as [|x l [Hx1 Hx2] _ [IH1 IH2]].
    - unfold len, sumQ. cbn [length fold_left Z.of_nat].
      change (inject_Z 0) with 0%Q. rewrite !Qmult_0_l. split; apply Qle_refl.
    - rewrite sumQ_cons. unfold len in *. simpl length.
      rewrite Nat2Z.inj_succ, <- Z.add_1_l, inject_Z_plus. change (inject_Z 1) with 1%Q.
      set (k := inject_Z (Z.of_nat (length l))) in *.
      assert (E1 : ((1 + k) * lo == lo + k * lo)%Q) by ring.
      assert (E2 : ((1 + k) * hi == hi + k * hi)%Q) by ring.
      rewrite E1, E2. set (klo := (k * lo)%Q) in *. set (khi := (k * hi)%Q) in *.
      split; lra. }
  destruct Hsum as [H1 H2].
  assert (Hpos : (0 < inject_Z (len l))%Q).
  { change 0%Q with (inject_Z 0). rewrite <- Zlt_Qlt. unfold len.
    destruct l; [contradiction | simpl length; lia]. }
  split.
  - apply Qle_shift_div_l; [exact Hpos|]. rewrite Qmult_comm. exact H1.
  - apply Qle_shift_div_r; [exact Hpos|]. rewrite Qmult_comm. exact H2.
Qed.

(** ** The daily series *)

Lemma dd_append_keys k v (d : list (Z * list Q)) x :
  In x (List.map fst (dd_append k v d)) <-> x = k \/ In x (List.map fst d).
Proof.
  induction d as [|[k' vs] d IH]; simpl.
  - intuition congruence.
  - destruct (Z.eqb_spec k' k) as [->|Hne]; simpl; [intuition congruence|].
    rewrite IH. intuition congruence.
Qed.

Lemma dd_append_nodup k v (d : list (Z * list Q)) :
  List.NoDup (List.map fst d) -> List.NoDup (List.map fst (dd_append k v d)).
Proof.
  induction d as [|[k' vs] d IH]; simpl; intros Hd.
  - constructor; [intros [] | constructor].
  - apply List.NoDup_cons_iff in Hd as [Hk' Hd].
    destruct (Z.eqb_spec k' k) as [->|Hne]; simpl.
    + now constructor.
    + constructor; [|now apply IH]. rewrite dd_append_keys. intros [->|H]; tauto.
Qed.

Lemma dd_append_groups (P : Q -> Prop) k v (d : list (Z * list Q)) :
  P v ->
  Forall (fun g => snd g <> [] /\ Forall P (snd g)) d ->
  Forall (fun g => snd g <> [] /\ Forall P (snd g)) (dd_append k v d).
Proof.
  intros Hv. induction 1 as [|[k' vs] d [Hne Hvs] Hd IH]; simpl.
  - repeat constructor; [discriminate | exact Hv].
  - simpl in Hne, Hvs. destruct (k' =? k).
    + constructor; [|exact Hd]. simpl. split; [now destruct vs|].
      apply Forall_app. split; [exact Hvs | now constructor].
    + constructor; [now split | exact IH].
Qed.

Lemma group_by_date_spec (P : Q -> Prop) (data : list (Z * Q)) :
  Forall (fun p => P (snd p)) data ->
  List.NoDup (List.map fst (group_by_date data)) /\
  (forall x, In x (List.map fst (group_by_date data)) <-> In x (List.map fst data)) /\
  Forall (fun g => snd g <> [] /\ Forall P (snd g)) (group_by_date data).
Proof.
  intros HP. unfold group_by_date.
  assert (H : forall acc : list (Z * list Q),
             List.NoDup (List.map fst acc) ->
             Forall (fun g => snd g <> [] /\ Forall P (snd g)) acc ->
             let r := fold_left (fun d kv => dd_append (fst kv) (snd kv) d) data acc in
             List.NoDup (List.map fst r) /\
             (forall x, In x (List.map fst r)
                        <-> In x (List.map fst acc) \/ In x (List.map fst data)) /\
             Forall (fun g => snd g <> [] /\ Forall P (snd g)) r).
  { induction HP as [|p data Hp _ IH]; intros acc Hnd Hg; simpl.
    - split; [exact Hnd|]. split; [tauto | exact Hg].
    - destruct (IH (dd_append (fst p) (snd p) acc)) as (H1 & H2 & H3).
      + now apply dd_append_nodup.
      + now apply dd_append_groups.
      + split; [exact H1|]. split; [|exact H3].
        intros x. rewrite H2, dd_append_keys. intuition congruence. }
  destruct (H [] ltac:(constructor) ltac:(constructor)) as (H1 & H2 & H3).
  split; [exact H1|]. split; [|exact H3]. intros x. rewrite H2. simpl. intuition.
Qed.

Lemma insert_by_date_perm p l : Permutation (p :: l) (insert_by_date p l).
Proof.
  induction l as [|q l IH]; simpl; [reflexivity|].
  destruct (fst p <? fst q); [reflexivity|].
  rewrite Permutation_swap. now constructor.
Qed.

Lemma insert_by_date_sorted p l :
  StronglySorted by_date_le l -> StronglySorted by_date_le (insert_by_date p l).
Proof.
  induction 1 as [|q l Hs IH Hq]; simpl.
  - repeat constructor.
  - destruct (Z.ltb_spec (fst p) (fst q)) as [Hlt|Hge].
    + constructor; [now constructor|]. constructor; [unfold by_date_le; lia|].
      eapply Forall_impl; [exact Hq|]. unfold by_date_le. intros; simpl in *; lia.
    + constructor; [exact IH|].
      rewrite <- (insert_by_date_perm p l). constructor; [exact Hge | exact Hq].
Qed.

Lemma sort_by_date_spec l :
  Permutation l (sort_by_date l) /\ StronglySorted by_date_le (sort_by_date l).
Proof.
  unfold sort_by_date.
  assert (H : forall acc, StronglySorted by_date_le acc ->
             Permutation (acc ++ l) (fold_left (fun acc p => insert_by_date p acc) l acc) /\
             StronglySorted by_date_le
               (fold_left (fun acc p => insert_by_date p acc) l acc)).
  { induction l as [|p l IH]; intros acc Hacc; simpl.
    - now rewrite app_nil_r.
    - destruct (IH (insert_by_date p acc) (insert_by_date_sorted p acc Hacc)) as [H1 H2].
      split; [|exact H2]. rewrite <- H1, <- insert_by_date_perm.
      symmetry. apply Permutation_middle. }
  exact (H [] ltac:(constructor)).
Qed.

Lemma sorted_nodup_strict (l : list Z) :
  StronglySorted Z.le l -> List.NoDup l -> StronglySorted Z.lt l.
Proof.
  induction 1 as [|x l Hs IH Hx]; intros Hnd; [constructor|].
  apply List.NoDup_cons_iff in Hnd as [Hnin Hnd].
  constructor; [now apply IH|].
  rewrite List.Forall_forall in Hx |- *. intros y Hy.
  specialize (Hx y Hy). assert (x <> y) by (intros ->; contradiction). lia.
Qed.

Lemma sentiment_data_dates (sessions : list StandupSession) (d : Z) :
  In d (List.map fst (sentiment_data sessions))
  <-> exists s, In s sessions /\ date s = d /\ scored s.
Proof.
  unfold sentiment_data, scored. rewrite List.in_map_iff. split.
  - intros [[d' q] [<- Hin]]. apply list_elem_of_In, list_elem_of_omap in Hin as [s [Hs Hf]].
    exists s. destruct (sentiment_score s) eqn:E; [|discriminate].
    injection Hf as <- <-. split; [now apply list_elem_of_In|]. split; [reflexivity|discriminate].
  - intros [s (Hs & <- & Hsc)]. destruct (sentiment_score s) as [q|] eqn:E; [|contradiction].
    exists (date s, q). split; [reflexivity|].
    apply list_elem_of_In, list_elem_of_omap. exists s.
    split; [now apply list_elem_of_In | now rewrite E].
Qed.

(** X3.  The daily series of the forecast holds one entry per day on
    which a scored session exists, in strictly increasing order of the
    dates. *)
Theorem daily_series_dates (sessions : list StandupSession) :
  StronglySorted Z.lt (List.map fst (daily_series sessions)) /\
  forall d, In d (List.map fst (daily_series sessions))
            <-> exists s, In s sessions /\ date s = d /\ scored s.
Proof.
  unfold daily_series. fold (sentiment_data sessions). fold day_average.
  destruct (group_by_date_spec (fun _ => True) (sentiment_data sessions))
    as (Hnd & Hkeys & _); [now apply List.Forall_forall|].
  set (L := List.map day_average (group_by_date (sentiment_data sessions))).
  assert (HL : List.map fst L = List.map fst (group_by_date (sentiment_data sessions)))
    by (subst L; rewrite List.map_map; reflexivity).
  destruct (sort_by_date_spec L) as [Hperm Hsorted].
  assert (Hpk : Permutation (List.map fst L) (List.map fst (sort_by_date L)))
    by (now apply Permutation_map).
  split.
  - apply sorted_nodup_strict.
    + apply (StronglySorted_fmap fst by_date_le Z.le); [|exact Hsorted]. now unfold by_date_le.
    + apply (Permutation_NoDup Hpk). now rewrite HL.
  - intros d. rewrite <- sentiment_data_dates, <- Hkeys, <- HL.
    split; intros H; [now rewrite Hpk | now rewrite <- Hpk].
Qed.



(** X5.  The forecast is an error exactly when fewer than five sessions
    carry a score.  Otherwise it has seven predictions, each with a
    predicted sentiment within [0,1] and a confidence within
    [0.5, 0.9], dated on the seven days after the last day of the
    series. *)
Theorem sentiment_forecast_shape (sessions : list StandupSession) :
  match _predict_sentiment_trends sessions with
  | inl _ => (length (sentiment_data sessions) < 5)%nat
  | inr r =>
      (5 <= length (sentiment_data sessions))%nat /\
      length (future_predictions r) = 7%nat /\
      Forall (fun p => within 0 1 (predicted_sentiment p) /\
                       within (1 # 2) (9 # 10) (confidence p))
             (future_predictions r) /\
      List.map pred_date (future_predictions r)
      = List.map (fun i => List.last (List.map fst (daily_series sessions)) 0 + i)
                 (seqZ 1 7)
  end.
Proof.
  unfold _predict_sentiment_trends. fold (sentiment_data sessions).
  destruct (Nat.ltb_spec (length (sentiment_data sessions)) 5) as [Hlt|Hge]; [exact Hlt|].
  split; [exact Hge|]. cbn [future_predictions].
  split; [reflexivity|]. split; [|reflexivity].
  change (seqZ 1 7) with [1; 2; 3; 4; 5; 6; 7]. cbn [List.map].
  repeat (constructor;
          [split; [apply py_round_within_unit, clamp_unit | split; discriminate]|]).
  constructor.
Qed.

End ForecastProperties.

(** * The risk assessment *)

Section RiskScores.

Lemma ratio_within_unit (a b : Z) :
  0 <= a <= b -> 0 < b -> within 0 1 (inject_Z a / inject_Z b)%Q.
Proof.
  intros [Ha Hab] Hb.
  assert (Hbq : (0 < inject_Z b)%Q) by (change 0%Q with (inject_Z 0); now rewrite <- Zlt_Qlt).
  split.
  - apply Qle_shift_div_l; [exact Hbq|]. rewrite Qmult_0_l.
    change 0%Q with (inject_Z 0). now rewrite <- Zle_Qle.
  - apply Qle_shift_div_r; [exact Hbq|]. rewrite Qmult_1_l. now rewrite <- Zle_Qle.
Qed.

Lemma len_filter_le {A} (f : A -> bool) (l : list A) : 0 <= len (List.filter f l) <= len l.
Proof. unfold len. pose proof (List.filter_length_le f l). lia. Qed.

Lemma len_pos_of_nonzero {A} (l : list A) : (len l =? 0) = false -> 0 < len l.
Proof. unfold len. intros H. apply Z.eqb_neq in H. lia. Qed.

Lemma sentiment_risk_unit sessions : unit_score (_assess_sentiment_risk sessions).
Proof.
  unfold _assess_sentiment_risk.
  destruct (omap sentiment_score sessions) as [|q qs].
  - exists (5 # 10). split; [reflexivity | split; discriminate].
  - eexists. split; [reflexivity|]. apply py_round_within_unit, clamp_unit.
Qed.

Lemma productivity_risk_unit items sessions :
  unit_score (_assess_productivity_risk items sessions).
Proof.
  unfold _assess_productivity_risk.
  destruct (len sessions =? 0) eqn:E.
  - exists (5 # 10). split; [reflexivity | split; discriminate].
  - apply len_pos_of_nonzero in E.
    eexists. split; [reflexivity|]. apply py_round_within_unit.
    match goal with
    | |- within 0 1 ((?a + ?b) / 2) =>
        assert (Ha : within 0 1 a) by (apply ratio_within_unit; [apply len_filter_le | exact E]);
        assert (Hb : within 0 1 b) by (apply ratio_within_unit; [apply len_filter_le | exact E]);
        set (x := a) in *; set (y := b) in *
    end.
    destruct Ha, Hb. split.
    + apply Qle_shift_div_l; lra.
    + apply Qle_shift_div_r; lra.
Qed.

Lemma communication_risk_unit sessions : unit_score (_assess_communication_risk sessions).
Proof.
  unfold _assess_communication_risk.
  destruct (_ || _).
  - exists (5 # 10). split; [reflexivity | split; discriminate].
  - eexists. split; [reflexivity|]. apply py_round_within_unit, clamp_unit.
Qed.

Lemma workload_risk_unit sessions : unit_score (_assess_workload_risk sessions).
Proof.
  unfold _assess_workload_risk.
  destruct (len sessions =? 0) eqn:E.
  - exists (5 # 10). split; [reflexivity | split; discriminate].
  - apply len_pos_of_nonzero in E.
    eexists. split; [reflexivity|]. apply py_round_within_unit.
    match goal with
    | |- within 0 1 (py_min 1 (?a + ?b)) =>
        assert (Ha : within 0 1 a) by (apply ratio_within_unit; [apply len_filter_le | exact E]);
        assert (Hb : (0 <= b)%Q);
        [|set (x := a) in *; set (y := b) in *]
    end.
    { apply Qle_shift_div_l.
      - change 0%Q with (inject_Z 0). rewrite <- Zlt_Qlt. lia.
      - rewrite Qmult_0_l. change 0%Q with (inject_Z 0). rewrite <- Zle_Qle.
        apply len_filter_le. }
    destruct Ha. unfold within, py_min.
    destruct (Qltb (x + y) 1) eqn:E1; [apply Qltb_lt in E1|]; split; lra.
Qed.

Lemma consistency_risk_unit sessions : unit_score (_assess_consistency_risk sessions).
Proof.
  unfold _assess_consistency_risk.
  destruct (_ <? 2).
  - exists (5 # 10). split; [reflexivity | split; discriminate].
  - eexists. split; [reflexivity|]. apply py_round_within_unit, clamp_unit.
Qed.

Lemma scores_of_unit_risks (risks : list (string * gmap string pyval)) :
  Forall (fun nr => unit_score (snd nr)) risks ->
  Forall (within 0 1) (omap (fun nr => score_of (snd nr)) risks).
Proof.
  induction 1 as [|nr risks [q [Hq Hw]] _ IH]; simpl; [constructor|].
  rewrite Hq. now constructor.
Qed.

Lemma team_risks_unit items sessions now :
  Forall (fun nr => unit_score (snd nr))
         (individual_risks (_assess_team_risks items sessions now)).
Proof.
  unfold _assess_team_risks. cbn [individual_risks].
  repeat constructor; simpl.
  - apply sentiment_risk_unit.
  - apply productivity_risk_unit.
  - apply communication_risk_unit.
  - apply workload_risk_unit.
  - apply consistency_risk_unit.
Qed.

(** X6.  Each of the five sub-scores of the risk assessment, and the
    overall risk score, is a number within [0,1]. *)
Theorem team_risk_scores_within_unit items sessions now :
  Forall (fun nr => unit_score (snd nr))
         (individual_risks (_assess_team_risks items sessions now)) /\
  within 0 1 (overall_risk_score (_assess_team_risks items sessions now)).
Proof.
  split; [apply team_risks_unit|].
  pose proof (scores_of_unit_risks _ (team_risks_unit items sessions now)) as Hs.
  unfold _assess_team_risks in *. cbn [individual_risks overall_risk_score] in *.
  apply py_round_within_unit.
  destruct (omap _ _) as [|q qs] eqn:E.
  - split; discriminate.
  - apply mean_within; [discriminate | exact Hs].
Qed.

Lemma no_factor_scores (risks : list (string * gmap string pyval)) :
  Forall (fun nr => unit_score (snd nr)) risks ->
  _identify_risk_factors risks = [] ->
  Forall (within 0 (1 # 2)) (omap (fun nr => score_of (snd nr)) risks).
Proof.
  unfold _identify_risk_factors.
  induction 1 as [|nr risks [q [Hq [H0 H1]]] _ IH]; simpl; [constructor|].
  rewrite Hq. simpl. destruct (Qltb (5 # 10) q) eqn:E; [discriminate|].
  intros Hnone. constructor; [|now apply IH].
  apply Qltb_ge in E. split; [exact H0 | lra].
Qed.

(** X7.  An assessment of risk level 'high' names at least one risk
    factor. *)
Theorem high_risk_names_a_factor items sessions now :
  risk_level (_assess_team_risks items sessions now) = "high" ->
  risk_factors (_assess_team_risks items sessions now) <> [].
Proof.
  intros Hhigh Hnone.
  pose proof (no_factor_scores _ (team_risks_unit items sessions now)) as Hs.
  unfold _assess_team_risks in *. cbn [individual_risks risk_level risk_factors] in *.
  specialize (Hs Hnone).
  destruct (omap _ _) as [|q qs] eqn:E.
  - discriminate Hhigh.
  - destruct (mean_within 0 (1 # 2) (q :: qs) ltac:(discriminate) Hs) as [_ Hle].
    destruct (Qltb (7 # 10) _) eqn:E7.
    + apply Qltb_lt in E7. lra.
    + destruct (Qltb (4 # 10) _); discriminate.
Qed.

Lemma high_risk_names_a_factor_witness :
  risk_level (_assess_team_risks [] [stuck_session] (100 * 86400)) = "high" /\
  risk_factors (_assess_team_risks [] [stuck_session] (100 * 86400)) <> [].
Proof.
  split; [vm_compute; reflexivity|].
  apply (high_risk_names_a_factor [] [stuck_session] (100 * 86400)). vm_compute. reflexivity.
Defined.

(** X8.  With no session in the last 14 days every sub-score is 0.5,
    the overall score is 0.5, the level is 'medium' and no risk factor
    is named. *)
Theorem no_recent_sessions_risk items sessions now :
  Forall (fun s => date s < date_of now - 14) sessions ->
  let r := _assess_team_risks items sessions now in
  List.map (fun nr => score_of (snd nr)) (individual_risks r)
  = [Some (5 # 10); Some (5 # 10); Some (5 # 10); Some (5 # 10); Some (5 # 10)]%Q /\
  (overall_risk_score r == 1 # 2)%Q /\
  risk_level r = "medium" /\
  risk_factors r = [].
Proof.
  intros Hold.
  assert (Hnone : List.filter (fun s => date_of now - 14 <=? date s) sessions = []).
  { induction Hold as [|s sessions Hs _ IH]; simpl; [reflexivity|].
    destruct (Z.leb_spec (date_of now - 14) (date s)); [lia | exact IH]. }
  cbv zeta. unfold _assess_team_risks. rewrite Hnone.
  repeat split; vm_compute; reflexivity.
Qed.

Lemma no_recent_sessions_risk_witness :
  Forall (fun s => date s < date_of (200 * 86400) - 14) [stuck_session] /\
  risk_level (_assess_team_risks [] [stuck_session] (200 * 86400)) = "medium" /\
  risk_factors (_assess_team_risks [] [stuck_session] (200 * 86400)) = [].
Proof.
  assert (H : Forall (fun s => date s < date_of (200 * 86400) - 14) [stuck_session])
    by (repeat constructor).
  split; [exact H|].
  destruct (no_recent_sessions_risk [] [stuck_session] (200 * 86400) H) as (_ & _ & H1 & H2).
  split; assumption.
Defined.

Lemma all_below_count (t : Q) (l : list Q) :
  Forall (fun q => (q < t)%Q) l -> List.filter (fun q => Qltb q t) l = l.
Proof.
  induction 1 as [|q l Hq _ IH]; simpl; [reflexivity|].
  apply Qltb_lt in Hq. now rewrite Hq, IH.
Qed.

(** X9.  Where at least one session carries a score and every score is
    below 0.4, the sentiment risk is 1 and its trend is 'concerning'. *)
Theorem all_negative_sentiment_risk (sessions : list StandupSession) :
  omap sentiment_score sessions <> [] ->
  Forall (fun q => (q < 4 # 10)%Q) (omap sentiment_score sessions) ->
  exists q, score_of (_assess_sentiment_risk sessions) = Some q /\ (q == 1)%Q /\
            _assess_sentiment_risk sessions !! "trend" = Some (PyStr "concerning").
Proof.
  intros Hne Hall. unfold _assess_sentiment_risk.
  destruct (omap sentiment_score sessions) as [|q0 qs] eqn:E; [contradiction|].
  unfold sentiment_threshold_negative. rewrite (all_below_count _ _ Hall).
  set (l := q0 :: qs) in *.
  assert (Hpos : (0 < inject_Z (len l))%Q).
  { change 0%Q with (inject_Z 0). rewrite <- Zlt_Qlt. unfold len, l. simpl length. lia. }
  assert (Hone : (inject_Z (len l) / inject_Z (len l) == 1)%Q) by (field; lra).
  assert (Havg : (sumQ l / inject_Z (len l) < 4 # 10)%Q).
  { apply Qlt_shift_div_r; [exact Hpos|].
    assert (Hs : forall k, k <> [] -> Forall (fun q => (q < 4 # 10)%Q) k ->
                           (sumQ k < (4 # 10) * inject_Z (len k))%Q).
    { clear. intros k Hk Hall. induction Hall as [|x k Hx Hall IH]; [contradiction|].
      rewrite sumQ_cons. unfold len in *. simpl length.
      rewrite Nat2Z.inj_succ, <- Z.add_1_l, inject_Z_plus. change (inject_Z 1) with 1%Q.
      destruct k as [|y k].
      - change (sumQ []) with 0%Q.
        change (inject_Z (Z.of_nat (length (@nil Q)))) with 0%Q. lra.
      - specialize (IH ltac:(discriminate)).
        set (n := inject_Z (Z.of_nat (length (y :: k)))) in *.
        assert (E : ((4 # 10) * (1 + n) == (4 # 10) + (4 # 10) * n)%Q) by ring.
        rewrite E. lra. }
    apply Hs; [discriminate | exact Hall]. }
  assert (Hmin : py_max 0 (py_min 1 (1 - sumQ l / inject_Z (len l)
                                       + inject_Z (len l) / inject_Z (len l))) = 1%Q).
  { unfold py_min.
    assert (Hx : Qltb (1 - sumQ l / inject_Z (len l) + inject_Z (len l) / inject_Z (len l)) 1
                 = false) by (apply Qltb_ge; rewrite Hone; lra).
    rewrite Hx. reflexivity. }
  eexists. split; [reflexivity|]. rewrite Hmin. split; [reflexivity|]. reflexivity.
Qed.

Lemma all_negative_sentiment_risk_witness :
  omap sentiment_score [stuck_session] <> [] /\
  Forall (fun q => (q < 4 # 10)%Q) (omap sentiment_score [stuck_session]) /\
  exists q, score_of (_assess_sentiment_risk [stuck_session]) = Some q /\ (q == 1)%Q /\
            _assess_sentiment_risk [stuck_session] !! "trend" = Some (PyStr "concerning").
Proof.
  assert (H1 : omap sentiment_score [stuck_session] <> []) by discriminate.
  assert (H2 : Forall (fun q => (q < 4 # 10)%Q) (omap sentiment_score [stuck_session]))
    by (repeat constructor).
  split; [exact H1|]. split; [exact H2|].
  exact (all_negative_sentiment_risk [stuck_session] H1 H2).
Defined.

End RiskScores.

(** * Further properties of the early-warning checks *)

Section AlertChecks.

Lemma first_some (rows : list TeamHealthAlert) :
  rows <> [] -> exists a, first rows = Some a /\ In a rows.
Proof.
  intros Hne. destruct (first rows) as [a|] eqn:E.
  - exists a. split; [reflexivity|].
    unfold first in E.
    assert (H : forall l best r,
               fold_left (fun best r => match best with
                                        | None => Some r
                                        | Some b => if comes_before r b then Some r else Some b
                                        end) l best = Some r ->
               best = Some r \/ In r l).
    { induction l as [|x l IH]; intros best r; simpl; [now left|].
      intros H. apply IH in H as [H|H]; [|tauto].
      destruct best as [b|].
      - destruct (comes_before x b); injection H as <-; tauto.
      - injection H as <-. tauto. }
    apply H in E as [E|E]; [discriminate | exact E].
  - apply first_none in E. contradiction.
Qed.

Lemma filter_nil_weaken {A} (f g : A -> bool) (l : list A) :
  (forall x, g x = true -> f x = true) -> List.filter f l = [] -> List.filter g l = [].
Proof.
  intros Hgf. induction l as [|x l IH]; simpl; [reflexivity|].
  destruct (f x) eqn:Ef; [discriminate|]. intros Hf.
  destruct (g x) eqn:Eg; [apply Hgf in Eg; congruence | now apply IH].
Qed.

Lemma recent_active_earlier project type now now' a :
  now <= now' ->
  is_recent_active project type now' a = true -> is_recent_active project type now a = true.
Proof.
  unfold is_recent_active. rewrite !andb_true_iff, !Z.leb_le. intuition lia.
Qed.

(** X10.  After a call of [_create_alert] that created an alert, a later
    call for the same project and alert type, made while the stamp of
    that alert is within the last 24 hours, reports the alert as a
    duplicate and writes nothing, whatever the severity, the confidence,
    the context and the team member of the two calls. *)
Theorem create_alert_deduplicates (st st1 : Store) (now wall now' wall' project id : Z)
    (type sev sev' : string) (conf conf' : Q) (ctx ctx' : gmap string pyval)
    (member member' : option Z) :
  now <= now' -> now' - 86400 <= wall ->
  _create_alert st now wall project type sev conf ctx member = (Created id sev conf, st1) ->
  _create_alert st1 now' wall' project type sev' conf' ctx' member' = (Duplicate id, st1).
Proof.
  intros Hnow Hclock. unfold _create_alert at 1.
  destruct (first (List.filter (is_recent_active project type now) (alerts st))) as [a|] eqn:E;
    [discriminate|].
  apply first_none in E. intros [= <- <-].
  unfold _create_alert. cbn [alerts]. rewrite List.filter_app.
  rewrite (filter_nil_weaken _ (is_recent_active project type now') _
             (fun a => recent_active_earlier project type now now' a Hnow) E).
  cbn [List.filter app]. unfold is_recent_active at 1.
  cbn [alert_project alert_type alert_status created_at].
  rewrite Z.eqb_refl, String.eqb_refl. simpl String.eqb.
  destruct (Z.leb_spec (now' - 86400) wall) as [_|]; [|lia].
  reflexivity.
Qed.

Lemma create_alert_deduplicates_witness :
  100 * 86400 <= 100 * 86400 + 3600 /\
  100 * 86400 + 3600 - 86400 <= 100 * 86400 /\
  fst (_create_alert worn_out (100 * 86400) (100 * 86400) 1 "engagement_drop" "high"
         (7 # 10) ∅ None) = Created 1 "high" (7 # 10) /\
  fst (_create_alert
         (snd (_create_alert worn_out (100 * 86400) (100 * 86400) 1 "engagement_drop" "high"
                 (7 # 10) ∅ None))
         (100 * 86400 + 3600) (100 * 86400 + 3600) 1 "engagement_drop" "medium"
         (5 # 10) ∅ (Some 1)) = Duplicate 1.
Proof.
  split; [lia|]. split; [lia|]. split; [reflexivity|].
  set (st1 := snd (_create_alert worn_out (100 * 86400) (100 * 86400) 1 "engagement_drop"
                     "high" (7 # 10) ∅ None)).
  assert (H1 : _create_alert worn_out (100 * 86400) (100 * 86400) 1 "engagement_drop"
                 "high" (7 # 10) ∅ None = (Created 1 "high" (7 # 10), st1)) by reflexivity.
  now rewrite (create_alert_deduplicates worn_out st1 (100 * 86400) (100 * 86400)
                 (100 * 86400 + 3600) (100 * 86400 + 3600) 1 1
                 "engagement_drop" "high" "medium" (7 # 10) (5 # 10) ∅ ∅ None (Some 1)
                 ltac:(lia) ltac:(lia) H1).
Defined.

Lemma create_alert_item st now wall project type sev conf ctx member :
  created_with (fun s c => s = sev /\ c = conf)
               (fst (_create_alert st now wall project type sev conf ctx member)).
Proof.
  unfold _create_alert. destruct (first _); simpl; [exact I | now split].
Qed.

Lemma created_with_impl (P R : string -> Q -> Prop) item :
  (forall s c, P s c -> R s c) -> created_with P item -> created_with R item.
Proof. destruct item; simpl; auto. Qed.

Lemma engagement_rate_nonneg (a e : Z) :
  0 <= a -> (0 <= inject_Z a / inject_Z (Z.max e 1))%Q.
Proof.
  intros Ha. apply Qle_shift_div_l.
  - change 0%Q with (inject_Z 0). rewrite <- Zlt_Qlt. lia.
  - rewrite Qmult_0_l. change 0%Q with (inject_Z 0). now rewrite <- Zle_Qle.
Qed.

(** X11.  The engagement check returns at most one item, and none for a
    project without active members.  An alert it creates has severity
    high or medium and a confidence above 0.4 and at most 1; the
    severity is high exactly when the confidence is above 0.6. *)
Theorem engagement_drop_items (st : Store) (now wall project : Z) :
  let items := fst (_check_engagement_drop st now wall project) in
  (length items <= 1)%nat /\
  (active_members project st = [] -> items = []) /\
  Forall (created_with (fun sev conf =>
            (sev = "high" \/ sev = "medium") /\
            (4 # 10 < conf)%Q /\ (conf <= 1)%Q /\
            (sev = "high" <-> (6 # 10 < conf)%Q))) items.
Proof.
  cbv zeta. unfold _check_engagement_drop. fold (active_members project st).
  destruct (len (active_members project st) =? 0) eqn:Esize.
  - simpl. split; [lia|]. split; [reflexivity | constructor].
  - match goal with
    | |- context [Qltb ?r PARTICIPATION_THRESHOLD] =>
        assert (Hr : (0 <= r)%Q) by (apply engagement_rate_nonneg, len_filter_le
                                       with (l := sessions st));
        set (rate := r) in *
    end.
    assert (Hne : active_members project st = [] -> False).
    { intros E. rewrite E in Esize. discriminate. }
    destruct (Qltb rate PARTICIPATION_THRESHOLD) eqn:Elow.
    + apply Qltb_lt in Elow. unfold PARTICIPATION_THRESHOLD in Elow.
      match goal with
      | |- context [_create_alert ?s ?n ?w ?p ?t ?sev ?c ?x ?m] =>
          pose proof (create_alert_item s n w p t sev c x m) as Hitem;
          destruct (_create_alert s n w p t sev c x m) as [item st']
      end.
      simpl in *. split; [lia|]. split; [tauto|]. constructor; [|constructor].
      eapply created_with_impl; [|exact Hitem]. simpl. intros s c [-> ->].
      destruct (Qltb rate (4 # 10)) eqn:E4.
      * apply Qltb_lt in E4. repeat split; try lra; auto.
      * apply Qltb_ge in E4. repeat split; try lra; auto; try discriminate.
    + simpl. split; [lia|]. split; [reflexivity | constructor].
Qed.

(** X12.  The productivity check returns at most one item; an alert it
    creates has severity medium and a confidence above 0.4 and at most
    1. *)
Theorem productivity_concern_items (st : Store) (now wall project : Z) :
  let items := fst (_check_productivity_concern st now wall project) in
  (length items <= 1)%nat /\
  Forall (created_with (fun sev conf =>
            sev = "medium" /\ (4 # 10 < conf)%Q /\ (conf <= 1)%Q)) items.
Proof.
  cbv zeta. unfold _check_productivity_concern.
  destruct (len _ <? 5) eqn:E5; [simpl; split; [lia | constructor]|].
  match goal with
  | |- context [Qltb (4 # 10) (inject_Z (len (List.filter ?f ?l)) / inject_Z (len ?l))] =>
      assert (Hr : within 0 1 (inject_Z (len (List.filter f l)) / inject_Z (len l)));
      [apply ratio_within_unit; [apply len_filter_le | apply Z.ltb_ge in E5; lia]
      |set (rate := (inject_Z (len (List.filter f l)) / inject_Z (len l))%Q) in *]
  end.
  destruct (Qltb (4 # 10) rate) eqn:Elow; [|simpl; split; [lia | constructor]].
  apply Qltb_lt in Elow.
  match goal with
  | |- context [_create_alert ?s ?n ?w ?p ?t ?sev ?c ?x ?m] =>
      pose proof (create_alert_item s n w p t sev c x m) as Hitem;
      destruct (_create_alert s n w p t sev c x m) as [item st']
  end.
  simpl in *. split; [lia|]. constructor; [|constructor].
  eapply created_with_impl; [|exact Hitem]. simpl. intros s c [-> ->].
  destruct Hr. auto.
Qed.

Lemma burnout_score_bounds (st : Store) (now : Z) (m : TeamMember) :
  0 <= _calculate_burnout_score st now m <= 5.
Proof. unfold _calculate_burnout_score. split_ifs; lia. Qed.

Lemma burnout_loop_items now wall project members acc st
    (P := fun (sev : string) (conf : Q) =>
            (3 # 5 <= conf)%Q /\ (conf <= 1)%Q /\
            (sev = "critical" \/ sev = "high") /\
            (sev = "critical" <-> (conf == 1)%Q)) :
  Forall (created_with P) acc ->
  Forall (created_with P) (fst (burnout_loop now wall project members acc st)).
Proof.
  revert acc st. induction members as [|m members IH]; intros acc st Hacc; simpl; [exact Hacc|].
  destruct (Z.leb_spec BURNOUT_INDICATOR_THRESHOLD (_calculate_burnout_score st now m))
    as [H3|_]; [|now apply IH].
  unfold BURNOUT_INDICATOR_THRESHOLD in H3.
  pose proof (burnout_score_bounds st now m) as [_ H5].
  match goal with
  | |- context [_create_alert ?s ?n ?w ?p ?t ?sev ?c ?x ?mm] =>
      pose proof (create_alert_item s n w p t sev c x mm) as Hitem;
      destruct (_create_alert s n w p t sev c x mm) as [item st']
  end.
  apply IH. apply Forall_app. split; [exact Hacc|]. constructor; [|constructor].
  eapply created_with_impl; [|exact Hitem]. simpl. intros s c [-> ->]. subst P. simpl.
  assert (Hs : _calculate_burnout_score st now m = 3 \/ _calculate_burnout_score st now m = 4
               \/ _calculate_burnout_score st now m = 5) by lia.
  destruct Hs as [-> | [-> | ->]]; vm_compute; intuition discriminate.
Qed.

(** X13.  Every alert the burnout check creates has severity critical
    or high and a confidence within [0.6, 1]; the severity is critical
    exactly when the confidence is 1. *)
Theorem burnout_alert_items (st : Store) (now wall project : Z) :
  Forall (created_with (fun sev conf =>
            (3 # 5 <= conf)%Q /\ (conf <= 1)%Q /\
            (sev = "critical" \/ sev = "high") /\
            (sev = "critical" <-> (conf == 1)%Q)))
         (fst (_check_team_member_burnout st now wall project)).
Proof.
  unfold _check_team_member_burnout. apply burnout_loop_items. constructor.
Qed.

(** X14.  The sentiment-decline check returns at most one item.  An
    alert it creates with severity critical has confidence 1, one with
    severity high has a confidence above 0.6 and at most 1, and any
    other has severity medium and a confidence of at most 1. *)
Theorem sentiment_decline_items (st : Store) (now wall project : Z) :
  let items := fst (_check_sentiment_decline st now wall project) in
  (length items <= 1)%nat /\
  Forall (created_with (fun sev conf =>
            (sev = "critical" /\ conf = 1%Q) \/
            (sev = "high" /\ (6 # 10 < conf)%Q /\ (conf <= 1)%Q) \/
            (sev = "medium" /\ (conf <= 1)%Q))) items.
Proof.
  cbv zeta. unfold _check_sentiment_decline.
  destruct (len _ <? 5); [simpl; split; [lia | constructor]|].
  assert (Hmin : forall x, (py_min 1 x <= 1)%Q).
  { intros x. unfold py_min. destruct (Qltb x 1) eqn:E; [apply Qltb_lt in E|]; lra. }
  destruct (match Avg _ with Some avg => _ | None => None end) as [avg|] eqn:Elow.
  - match goal with
    | |- context [_create_alert ?s ?n ?w ?p ?t ?sev ?c ?x ?m] =>
        pose proof (create_alert_item s n w p t sev c x m) as Hitem;
        destruct (_create_alert s n w p t sev c x m) as [item st']
    end.
    simpl. split; [lia|]. constructor; [|constructor].
    eapply created_with_impl; [|exact Hitem]. simpl. intros s c [-> ->].
    destruct (Avg _) as [avg'|]; [|discriminate].
    destruct (negb (Qeq_bool avg' 0) && Qltb avg' SENTIMENT_DECLINE_THRESHOLD) eqn:Ec;
      [|discriminate].
    injection Elow as ->. apply andb_true_iff in Ec as [_ Ec]. apply Qltb_lt in Ec.
    unfold SENTIMENT_DECLINE_THRESHOLD in Ec.
    assert (Habs : (Qabs avg == - avg)%Q) by (apply Qabs_neg; lra).
    destruct (Qltb avg (- (5 # 10))) eqn:E5.
    + left. split; [reflexivity|]. apply Qltb_lt in E5. unfold py_min.
      assert (Hx : Qltb (Qabs avg * 2) 1 = false) by (apply Qltb_ge; rewrite Habs; lra).
      now rewrite Hx.
    + right. left. split; [reflexivity|]. split; [|apply Hmin].
      unfold py_min. destruct (Qltb (Qabs avg * 2) 1) eqn:Ex; [rewrite Habs; lra | lra].
  - repeat match goal with
           | |- context [match Avg ?c with _ => _ end] => destruct (Avg c)
           end;
      try (simpl; split; [lia | constructor]).
    destruct (_ && _); [|simpl; split; [lia | constructor]].
    match goal with
    | |- context [_create_alert ?s ?n ?w ?p ?t ?sev ?c ?x ?m] =>
        pose proof (create_alert_item s n w p t sev c x m) as Hitem;
        destruct (_create_alert s n w p t sev c x m) as [item st']
    end.
    simpl. split; [lia|]. constructor; [|constructor].
    eapply created_with_impl; [|exact Hitem]. simpl. intros s c [-> ->].
    right. right. split; [reflexivity | apply Hmin].
Qed.

End AlertChecks.

(** * The monitoring run *)

Section Monitoring.

Lemma run_processors_skips ps1 ps2 name f now wall project acc st :
  (forall st, f st now wall project = (Raised, st)) ->
  run_processors (ps1 ++ (name, f) :: ps2) now wall project acc st
  = run_processors (ps1 ++ ps2) now wall project acc st.
Proof.
  intros Hf. revert acc st. induction ps1 as [|[n g] ps1 IH]; intros acc st; simpl.
  - now rewrite Hf.
  - destruct (g st now wall project) as [[|alerts] st']; apply IH.
Qed.

(** X15.  A processor that raises before writing anything is skipped:
    the monitoring of a project gives the same result, and leaves the
    same store, as without that processor, wherever it stands in the
    list. *)
Theorem raising_processor_is_skipped ps1 ps2 name f st now wall project :
  (forall st, f st now wall (project_id project) = (Raised, st)) ->
  _monitor_project_health (ps1 ++ (name, f) :: ps2) st now wall project
  = _monitor_project_health (ps1 ++ ps2) st now wall project.
Proof.
  intros Hf. unfold _monitor_project_health.
  now rewrite (run_processors_skips ps1 ps2 name f now wall (project_id project) [] st Hf).
Qed.

Lemma raising_processor_is_skipped_witness :
  (forall st, failing_check st (100 * 86400) (100 * 86400) (project_id project_one)
              = (Raised, st)) /\
  _monitor_project_health
    (firstn 2 embedded_processors ++ ("blocker_increase", failing_check)
       :: skipn 2 embedded_processors)
    two_worn_out (100 * 86400) (100 * 86400) project_one
  = _monitor_project_health (firstn 2 embedded_processors ++ skipn 2 embedded_processors)
      two_worn_out (100 * 86400) (100 * 86400) project_one.
Proof.
  split; [reflexivity|].
  apply (raising_processor_is_skipped (firstn 2 embedded_processors)
           (skipn 2 embedded_processors) "blocker_increase" failing_check).
  reflexivity.
Defined.

Lemma sumZ_snoc (l : list Z) (x : Z) : sumZ (l ++ [x]) = sumZ l + x.
Proof. rewrite sumZ_app, sumZ_cons. change (sumZ []) with 0. lia. Qed.

Lemma monitor_loop_summary processors now wall projects results st :
  summary_consistent results ->
  let r := fst (monitor_loop processors now wall projects results st) in
  summary_consistent r /\
  projects_monitored r = projects_monitored results /\
  len (detailed_results r) = len (detailed_results results) + len projects /\
  warnings_issued r = warnings_issued results.
Proof.
  revert results st. induction projects as [|proj projects IH]; intros results st Hinv.
  - simpl. unfold len. simpl. repeat split; try apply Hinv; lia.
  - cbn [monitor_loop].
    destruct (_monitor_project_health processors st now wall proj) as [pr st'].
    match goal with
    | |- context [monitor_loop _ _ _ _ ?res _] => set (results' := res)
    end.
    assert (Hinv' : summary_consistent results').
    { destruct Hinv as (H1 & H2 & H3 & H4 & H5).
      pose proof (len_filter_le is_critical (pr_alerts_generated pr)) as Hc.
      unfold summary_consistent. subst results'.
      cbn [alerts_generated critical_alerts projects_at_risk detailed_results].
      destruct (Z.ltb_spec 0 (len (pr_alerts_generated pr))) as [Hpos|Hzero];
        rewrite ?List.map_app; cbn [List.map]; rewrite ?sumZ_snoc.
      - cbn [risk_alerts risk_critical].
        split; [lia|]. split; [lia|]. split; [lia|]. split; [lia|].
        apply Forall_app. split; [exact H5|]. constructor; [|constructor].
        cbn [risk_alerts risk_critical]. lia.
      - assert (len (pr_alerts_generated pr) = 0) by (unfold len in *; lia).
        split; [lia|]. split; [lia|]. split; [lia|]. split; [lia | exact H5]. }
    destruct (IH results' st' Hinv') as (Hr & Hm & Hd & Hw).
    cbv zeta. split; [exact Hr|]. split; [exact Hm|]. split; [|exact Hw].
    rewrite Hd. subst results'. cbn [detailed_results]. unfold len.
    rewrite length_app. simpl length. lia.
Qed.

(** X16.  In the result of a monitoring run the counters agree:
    [projects_monitored] is the number of detailed results,
    [alerts_generated] is the number of items of all projects
    (duplicates included) and the sum of the [alerts] of the projects
    at risk, [critical_alerts] is the sum of their [critical] and is at
    most [alerts_generated], every project at risk has at least one
    item, and [warnings_issued] is 0. *)
Theorem monitoring_summary processors project_table st now wall project :
  let r := fst (run_health_monitoring processors project_table st now wall project) in
  projects_monitored r = len (detailed_results r) /\
  warnings_issued r = 0 /\
  summary_consistent r.
Proof.
  cbv zeta. unfold run_health_monitoring.
  match goal with
  | |- context [monitor_loop _ _ _ ?ps ?res _] =>
      destruct (monitor_loop_summary processors now wall ps res st) as (Hr & Hm & Hd & Hw)
  end.
  - unfold summary_consistent. simpl. repeat split; try reflexivity; try lia. constructor.
  - cbv zeta in *. rewrite Hm, Hd, Hw. simpl. split; [unfold len; simpl; lia|].
    split; [reflexivity | exact Hr].
Qed.

End Monitoring.

(** * Repeated runs of the checks *)

Section RepeatedRuns.
Variables now wall wall' project : Z.
Hypothesis Hclock : now - 86400 <= wall.

Lemma create_alert_again st type sev conf ctx m sev' conf' ctx' m' :
  let r1 := _create_alert st now wall project type sev conf ctx m in
  exists id,
    _create_alert (snd r1) now wall' project type sev' conf' ctx' m' = (Duplicate id, snd r1).
Proof.
  cbv zeta. unfold _create_alert at 2 3.
  destruct (first (List.filter (is_recent_active project type now) (alerts st)))
    as [a|] eqn:E; cbn [snd].
  - exists (alert_id a). unfold _create_alert. now rewrite E.
  - match goal with
    | |- context [alerts st ++ [?x]] => set (new := x)
    end.
    destruct (first_some (List.filter (is_recent_active project type now)
                                      (alerts st ++ [new]))) as [a [Ha _]].
    + rewrite List.filter_app. cbn [List.filter].
      assert (Hnew : is_recent_active project type now new = true).
      { unfold is_recent_active, new.
        cbn [alert_project alert_type alert_status created_at].
        rewrite Z.eqb_refl, String.eqb_refl. simpl String.eqb.
        destruct (Z.leb_spec (now - 86400) wall); [reflexivity | lia]. }
      rewrite Hnew. now destruct (List.filter _ (alerts st)).
    + exists (alert_id a). unfold _create_alert. cbn [alerts]. now rewrite Ha.
Qed.

Lemma create_alert_tables st type sev conf ctx m :
  sessions (snd (_create_alert st now wall project type sev conf ctx m)) = sessions st /\
  team_members (snd (_create_alert st now wall project type sev conf ctx m))
  = team_members st.
Proof. unfold _create_alert. destruct (first _); split; reflexivity. Qed.

Lemma single_shot_repeats check type st :
  single_shot check type now project st ->
  repeats_as_duplicates check st now wall wall' project.
Proof.
  intros [[[[sev conf] ctx]|] Hd]; unfold repeats_as_duplicates; cbv zeta.
  - rewrite (Hd st wall eq_refl eq_refl).
    destruct (create_alert_again st type sev conf ctx None sev conf ctx None) as [id Hid].
    destruct (create_alert_tables st type sev conf ctx None) as [Hs Hm].
    destruct (_create_alert st now wall project type sev conf ctx None) as [a st1].
    cbn [fst snd] in *. rewrite (Hd st1 wall' Hs Hm), Hid. cbn [fst snd].
    split; [reflexivity|]. split; [reflexivity|]. repeat constructor.
  - rewrite (Hd st wall eq_refl eq_refl). cbn [fst snd].
    rewrite (Hd st wall' eq_refl eq_refl). cbn [fst snd].
    split; [reflexivity|]. split; [reflexivity|]. constructor.
Qed.

(** Case analysis on every test the check makes on the tables of [st],
    then the same tests on a store with the same tables. *)
Ltac same_decision check :=
  intros [ss ms al nid] w Hs Hm; cbn [sessions team_members] in Hs, Hm; subst ss ms;
  unfold check; cbv zeta; cbn [sessions team_members];
  repeat (match goal with
          | E : ?l = _ |- context [?l] => rewrite E
          end; cbv beta iota);
  reflexivity.

Ltac decide_from_tables check st :=
  unfold single_shot;
  pose proof (eq_refl (check st now wall project)) as probe;
  unfold check in probe at 1; cbv zeta in probe;
  repeat match type of probe with
         | context [if ?b then _ else _] => destruct b eqn:?
         | context [match ?o with Some _ => _ | None => _ end] => destruct o eqn:?
         | context [match ?p with (_, _) => _ end] => is_var p; destruct p
         end;
  clear probe;
  first [ exists None; same_decision check
        | eexists (Some (_, _, _)); same_decision check ].

Lemma sentiment_decline_single_shot st :
  single_shot _check_sentiment_decline "sentiment_decline" now project st.
Proof. decide_from_tables _check_sentiment_decline st. Qed.

Lemma engagement_drop_single_shot st :
  single_shot _check_engagement_drop "engagement_drop" now project st.
Proof. decide_from_tables _check_engagement_drop st. Qed.

Lemma productivity_concern_single_shot st :
  single_shot _check_productivity_concern "productivity_concern" now project st.
Proof. decide_from_tables _check_productivity_concern st. Qed.

Lemma burnout_check_repeats st :
  repeats_as_duplicates _check_team_member_burnout st now wall wall' project.
Proof.
  unfold repeats_as_duplicates, _check_team_member_burnout. cbv zeta.
  fold (active_members project st).
  destruct (first (recent_burnout project now st)) as [e|] eqn:Hfirst.
  - rewrite (burnout_loop_existing now wall project e _ _ _ Hfirst). cbn [fst snd].
    fold (active_members project st).
    rewrite (burnout_loop_existing now wall' project e _ _ _ Hfirst). cbn [fst snd].
    split; [reflexivity|]. split; [reflexivity|].
    simpl. apply Forall_map. now apply List.Forall_forall.
  - apply first_none in Hfirst.
    rewrite (burnout_loop_fresh now wall project Hclock _ _ _ Hfirst).
    destruct (List.filter (qualifies st now) (active_members project st)) as [|m rest] eqn:Ehot.
    + cbn [fst snd]. fold (active_members project st).
      assert (Hany : forall w, burnout_loop now w project (active_members project st) [] st
                               = ([], st)).
      { intros w. clear Hclock.
        assert (H : forall members acc,
                   List.filter (qualifies st now) members = [] ->
                   burnout_loop now w project members acc st = (acc, st)).
        { induction members as [|x members IH]; intros acc; simpl; [reflexivity|].
          unfold qualifies at 1.
          destruct (BURNOUT_INDICATOR_THRESHOLD <=? _calculate_burnout_score st now x);
            [discriminate | apply IH]. }
        now apply H. }
      rewrite Hany. cbn [fst snd]. split; [reflexivity|]. split; [reflexivity | constructor].
    + cbv zeta. cbn [fst snd].
      set (a := burnout_alert st now wall project m).
      assert (Hf : first (recent_burnout project now (with_alert st a)) = Some a)
        by (unfold a; now rewrite (recent_burnout_after_first now wall project Hclock st m Hfirst)).
      change (List.filter (fun m0 => (member_project m0 =? project) && is_active m0)
                          (team_members (with_alert st a)))
        with (active_members project st).
      rewrite (burnout_loop_existing now wall' project a _ _ _ Hf). cbn [fst snd].
      change (List.filter (qualifies (with_alert st a) now) (active_members project st))
        with (List.filter (qualifies st now) (active_members project st)).
      rewrite Ehot. split; [reflexivity|]. split; [simpl; now rewrite length_map|].
      simpl. constructor; [exact I|]. apply Forall_map. now apply List.Forall_forall.
Qed.

(** X17.  For each of the four checks, a second run at the same [now]
    on the store the first run leaves, the alert of the first run being
    stamped within the last 24 hours, writes nothing and returns as
    many items as the first run, all of them duplicates. *)
Theorem checks_repeat_as_duplicates (st : Store) :
  repeats_as_duplicates _check_sentiment_decline st now wall wall' project /\
  repeats_as_duplicates _check_engagement_drop st now wall wall' project /\
  repeats_as_duplicates _check_productivity_concern st now wall wall' project /\
  repeats_as_duplicates _check_team_member_burnout st now wall wall' project.
Proof.
  split; [|split; [|split]].
  - apply (single_shot_repeats _ "sentiment_decline"), sentiment_decline_single_shot.
  - apply (single_shot_repeats _ "engagement_drop"), engagement_drop_single_shot.
  - apply (single_shot_repeats _ "productivity_concern"), productivity_concern_single_shot.
  - apply burnout_check_repeats.
Qed.

End RepeatedRuns.

Lemma checks_repeat_as_duplicates_witness :
  100 * 86400 - 86400 <= 100 * 86400 /\
  repeats_as_duplicates _check_team_member_burnout two_worn_out
    (100 * 86400) (100 * 86400) (100 * 86400 + 60) 1 /\
  repeats_as_duplicates _check_sentiment_decline two_worn_out
    (100 * 86400) (100 * 86400) (100 * 86400 + 60) 1.
Proof.
  split; [lia|].
  destruct (checks_repeat_as_duplicates (100 * 86400) (100 * 86400) (100 * 86400 + 60) 1
              ltac:(lia) two_worn_out) as (Hs & _ & _ & Hb).
  split; assumption.
Defined.

(** * Notifications *)

Section Notifications.
Variables (members : list TeamMember) (profiles : list UserProfile).

Lemma notify_managers_fold (managers : list UserProfile) (r : notification_results) :
  fold_left
    (fun results manager =>
       {| notifications_sent := notifications_sent results + 1;
          errors := errors results;
          recipients := recipients results ++ [email manager] |})
    managers r
  = {| notifications_sent := notifications_sent r + len managers;
       errors := errors r;
       recipients := recipients r ++ List.map email managers |}.
Proof.
  revert r. induction managers as [|m managers IH]; intros r.
  - simpl. unfold len. simpl. rewrite Z.add_0_r, app_nil_r. now destruct r.
  - cbn [fold_left]. rewrite IH. cbn [notifications_sent errors recipients List.map].
    f_equal.
    + unfold len. simpl length. lia.
    + now rewrite <- app_assoc.
Qed.

Lemma send_alert_notifications_spec (alerts : list TeamHealthAlert) :
  send_alert_notifications members profiles alerts
  = {| notifications_sent := len (addressed members profiles alerts);
       errors := [];
       recipients := addressed members profiles alerts |}.
Proof.
  unfold send_alert_notifications, addressed. fold urgent.
  change (fun alert : TeamHealthAlert =>
            String.eqb (severity alert) "critical" || String.eqb (severity alert) "high")
    with urgent.
  set (step := fun (results : notification_results) (alert : TeamHealthAlert) => _).
  assert (H : forall l r,
             fold_left step l r
             = {| notifications_sent :=
                    notifications_sent r
                    + len (flat_map (fun alert =>
                                       List.map email
                                         (_get_project_managers members profiles
                                            (alert_project alert))) l);
                  errors := errors r;
                  recipients :=
                    recipients r
                    ++ flat_map (fun alert =>
                                   List.map email
                                     (_get_project_managers members profiles
                                        (alert_project alert))) l |}).
  { induction l as [|a l IH]; intros r.
    - simpl. unfold len. simpl. rewrite Z.add_0_r, app_nil_r. now destruct r.
    - cbn [fold_left flat_map]. rewrite IH. unfold step.
      rewrite notify_managers_fold. cbn [notifications_sent errors recipients].
      f_equal.
      + unfold len. rewrite length_app, length_map. lia.
      + now rewrite <- app_assoc. }
  rewrite H. reflexivity.
Qed.

Lemma project_managers_are_managers (project : Z) (p : UserProfile) :
  In p (_get_project_managers members profiles project) ->
  In p profiles /\ role p = "manager".
Proof.
  assert (Hrole : forall q, is_manager q = true -> role q = "manager").
  { intros q. unfold is_manager, MANAGEMENT_ROLES. simpl. rewrite orb_false_r.
    apply String.eqb_eq. }
  unfold _get_project_managers.
  match goal with
  | |- context [omap ?f ?l] => set (managers := omap f l)
  end.
  assert (Hm : forall q, In q managers -> In q profiles /\ role q = "manager").
  { intros q Hq. apply list_elem_of_In, list_elem_of_omap in Hq as (m & _ & Hq).
    destruct (List.find _ profiles) as [profile|] eqn:Hfind; [|discriminate].
    destruct (is_manager profile) eqn:Hrole'; [|discriminate].
    injection Hq as <-. split; [|now apply Hrole].
    now apply List.find_some in Hfind as [Hin _]. }
  destruct managers as [|m0 managers'] eqn:E.
  - destruct (List.filter _ profiles) as [|q qs] eqn:Efilter; [intros []|].
    intros [<-|[]].
    assert (Hq : In q (q :: qs)) by now left.
    rewrite <- Efilter in Hq. apply List.filter_In in Hq as [Hin Hr].
    split; [exact Hin | now apply Hrole].
  - apply Hm.
Qed.

(** X18.  [send_alert_notifications] counts one notification per
    recipient and reports no error; every recipient is the address of a
    profile whose role is manager; and alerts that are neither critical
    nor high change nothing. *)
Theorem notifications_go_to_managers (alerts : list TeamHealthAlert) :
  let r := send_alert_notifications members profiles alerts in
  notifications_sent r = len (recipients r) /\
  errors r = [] /\
  Forall (fun address => exists p, In p profiles /\ role p = "manager" /\ email p = address)
         (recipients r) /\
  r = send_alert_notifications members profiles (List.filter urgent alerts).
Proof.
  cbv zeta. rewrite !send_alert_notifications_spec. cbn [notifications_sent errors recipients].
  split; [reflexivity|]. split; [reflexivity|]. split.
  - apply List.Forall_forall. intros address Hin. unfold addressed in Hin.
    apply in_flat_map in Hin as (a & _ & Hin). apply in_map_iff in Hin as (p & <- & Hp).
    apply project_managers_are_managers in Hp as [Hp Hr]. now exists p.
  - unfold addressed.
    assert (Hff : List.filter urgent (List.filter urgent alerts) = List.filter urgent alerts).
    { induction alerts as [|a l IH]; [reflexivity|]. simpl.
      destruct (urgent a) eqn:E; [simpl; rewrite E; now f_equal | exact IH]. }
    now rewrite Hff.
Qed.

(** X19.  When some profile has the role manager, every critical or
    high alert is notified to at least one manager, whatever its
    project: the number of notifications is at least the number of such
    alerts. *)
Theorem urgent_alerts_reach_a_manager (alerts : list TeamHealthAlert) (p : UserProfile) :
  In p profiles -> role p = "manager" ->
  len (List.filter urgent alerts)
  <= notifications_sent (send_alert_notifications members profiles alerts).
Proof.
  intros Hin Hrole. rewrite send_alert_notifications_spec. cbn [notifications_sent].
  unfold addressed.
  assert (Hone : forall project,
             (1 <= length (_get_project_managers members profiles project))%nat).
  { intros project. unfold _get_project_managers.
    match goal with
    | |- context [omap ?f ?l] => destruct (omap f l) as [|m0 ms]
    end; [|simpl; lia].
    destruct (List.filter _ profiles) as [|q qs] eqn:E; [|simpl; lia].
    exfalso. assert (Hp : In p (List.filter
                                  (fun p => existsb (String.eqb (role p)) MANAGEMENT_ROLES)
                                  profiles)).
    { apply List.filter_In. split; [exact Hin|]. rewrite Hrole. reflexivity. }
    rewrite E in Hp. exact Hp. }
  induction (List.filter urgent alerts) as [|a l IH].
  - unfold len. simpl. lia.
  - cbn [flat_map]. unfold len in *. rewrite length_app, length_map. simpl length.
    specialize (Hone (alert_project a)). lia.
Qed.

End Notifications.

Lemma urgent_alerts_reach_a_manager_witness :
  In (profile_of 9 "manager" "lead@example.org")
     [profile_of 7 "developer" "dev@example.org"; profile_of 9 "manager" "lead@example.org"] /\
  role (profile_of 9 "manager" "lead@example.org") = "manager" /\
  len (List.filter urgent [alert_of 1 1 "high"; alert_of 2 1 "low"; alert_of 3 2 "critical"])
  <= notifications_sent
       (send_alert_notifications [member_of 1 7 1]
          [profile_of 7 "developer" "dev@example.org"; profile_of 9 "manager" "lead@example.org"]
          [alert_of 1 1 "high"; alert_of 2 1 "low"; alert_of 3 2 "critical"]).
Proof.
  assert (Hin : In (profile_of 9 "manager" "lead@example.org")
                   [profile_of 7 "developer" "dev@example.org";
                    profile_of 9 "manager" "lead@example.org"])
    by (right; left; reflexivity).
  split; [exact Hin|]. split; [reflexivity|].
  exact (urgent_alerts_reach_a_manager [member_of 1 7 1] _ _ _ Hin eq_refl).
Defined.

(** * The trend history *)

Section TrendHistory.

Lemma unique_from_keys (table : list row) :
  (forall p m d, (length (List.filter (same_key p m d) table) <= 1)%nat) ->
  unique_together table = true.
Proof.
  induction table as [|r rest IH]; intros H; [reflexivity|].
  cbn [unique_together]. apply andb_true_iff. split.
  - apply negb_true_iff. destruct (existsb _ rest) eqn:E; [|reflexivity].
    apply existsb_exists in E as (r' & Hin & Hk).
    specialize (H (t_project r) (metric_type r) (t_date r)). cbn [List.filter] in H.
    assert (Hr : same_key (t_project r) (metric_type r) (t_date r) r = true)
      by now apply same_key_eq.
    rewrite Hr in H.
    assert (Hin' : In r' (List.filter (same_key (t_project r) (metric_type r) (t_date r)) rest))
      by (apply List.filter_In; now split).
    destruct (List.filter _ rest); [destruct Hin' | simpl in H; lia].
  - apply IH. intros p m d. specialize (H p m d). cbn [List.filter] in H.
    destruct (same_key p m d r); simpl in H; lia.
Qed.

Lemma update_or_create_change table p m d cur prev chg dir r7 r30 t table' :
  update_or_create table p m d cur prev chg dir r7 r30 = Ok t table' ->
  change_percentage t = chg /\ metric_type t = m.
Proof.
  unfold update_or_create.
  destruct (List.filter (same_key p m d) table) as [|old [|]]; intros [= <- _];
    split; reflexivity.
Qed.

Lemma calculate_trend_fields table today p m v date t table' :
  calculate_trend table today p m v date = Ok t table' ->
  let d := match date with Some d => d | None => today end in
  let prev := value_before table p m d in
  current_value t = v /\ previous_value t = prev /\
  change_percentage t = percent_change v prev /\
  metric_type t = m /\
  trend_direction t
  = match percent_change v prev with
    | Some c => if Qltb 5 c then "improving"
                else if Qltb c (-5) then "declining"
                else if Qltb 15 (Qabs c) then "volatile" else "stable"
    | None => "stable"
    end.
Proof.
  cbv zeta. unfold calculate_trend, value_before, percent_change, before.
  destruct (latest _) as [r|]; cbn [fmap option_fmap option_map].
  - destruct (negb (Qeq_bool (current_value r) 0)); intros H;
      pose proof (update_or_create_direction _ _ _ _ _ _ _ _ _ _ _ _ H) as (Hd & Hc & Hp);
      pose proof (update_or_create_change _ _ _ _ _ _ _ _ _ _ _ _ H) as (Hg & Hm);
      repeat split; assumption.
  - intros H.
    pose proof (update_or_create_direction _ _ _ _ _ _ _ _ _ _ _ _ H) as (Hd & Hc & Hp).
    pose proof (update_or_create_change _ _ _ _ _ _ _ _ _ _ _ _ H) as (Hg & Hm).
    repeat split; assumption.
Qed.

Lemma calculate_trend_upsert table today p m v date :
  unique_together table = true ->
  let d := match date with Some d => d | None => today end in
  exists t table1,
    calculate_trend table today p m v date = Ok t table1 /\
    List.filter (same_key p m d) table1 = [t] /\
    forall q : row -> bool,
      (forall r, q r = true -> same_key p m d r = false) ->
      List.filter q table1 = List.filter q table.
Proof.
  intros Hu d.
  destruct (calculate_trend_reads table today p m v date)
    as (chg & dir & r7 & r30 & _ & Hc). fold d in Hc. cbv zeta in Hc.
  destruct (update_or_create_spec table p m d v
              (current_value <$> latest (List.filter (before p m d) table)) chg dir r7 r30
              (unique_key_rows table p m d Hu))
    as (anomaly & breached & table1 & Hcreate & Hkey & Hother).
  eexists _, table1. split; [|split; [exact Hkey | exact Hother]].
  rewrite (Hc table eq_refl eq_refl eq_refl). exact Hcreate.
Qed.

Lemma other_key (p m d p' m' d' : _) (r : row) :
  (p', m', d') <> (p, m, d) -> same_key p' m' d' r = true -> same_key p m d r = false.
Proof.
  intros Hne Hk. destruct (same_key p m d r) eqn:E; [|reflexivity].
  apply same_key_eq in Hk as (<- & <- & <-). apply same_key_eq in E as (<- & <- & <-).
  now contradiction Hne.
Qed.

(** X20.  On a table that satisfies the uniqueness constraint,
    [calculate_trend] returns a row and a table that satisfies the
    constraint again; the rows of every other key are as before, and
    the table has the same number of rows or one more. *)
Theorem calculate_trend_keeps_constraint table today p m v date :
  unique_together table = true ->
  let d := match date with Some d => d | None => today end in
  exists t table1,
    calculate_trend table today p m v date = Ok t table1 /\
    unique_together table1 = true /\
    (forall p' m' d', (p', m', d') <> (p, m, d) ->
       List.filter (same_key p' m' d') table1 = List.filter (same_key p' m' d') table) /\
    (length table <= length table1 <= length table + 1)%nat.
Proof.
  intros Hu d.
  destruct (calculate_trend_upsert table today p m v date Hu) as (t & table1 & Hc & Hkey & Hother).
  fold d in Hkey, Hother.
  assert (Hrest : forall p' m' d', (p', m', d') <> (p, m, d) ->
             List.filter (same_key p' m' d') table1 = List.filter (same_key p' m' d') table).
  { intros p' m' d' Hne. apply Hother. intros r. now apply other_key. }
  exists t, table1. split; [exact Hc|]. split; [|split; [exact Hrest|]].
  - apply unique_from_keys. intros p' m' d'.
    destruct (decide ((p', m', d') = (p, m, d))) as [[= -> -> ->]|Hne].
    + rewrite Hkey. simpl. lia.
    + rewrite (Hrest _ _ _ Hne). now apply unique_key_rows.
  - pose proof (List.filter_length (same_key p m d) table) as L.
    pose proof (List.filter_length (same_key p m d) table1) as L1.
    rewrite Hkey in L1. simpl in L1.
    rewrite (Hother (fun x => negb (same_key p m d x))) in L1
      by (intros r Hr; now apply negb_true_iff in Hr).
    pose proof (unique_key_rows table p m d Hu). lia.
Qed.

Lemma calculate_trend_keeps_constraint_witness :
  unique_together two_points = true /\
  exists t table1,
    calculate_trend two_points 9 1 "participation" 60 None = Ok t table1 /\
    unique_together table1 = true /\
    (forall p' m' d', (p', m', d') <> (1, "participation", 9) ->
       List.filter (same_key p' m' d') table1 = List.filter (same_key p' m' d') two_points) /\
    (length two_points <= length table1 <= length two_points + 1)%nat.
Proof.
  split; [reflexivity|].
  exact (calculate_trend_keeps_constraint two_points 9 1 "participation" 60 None eq_refl).
Defined.

(** X21.  A value more than 10 percent below a positive previous value
    is recorded as declining, and the row is concerning, whatever the
    metric. *)
Theorem steep_drop_is_concerning table today p m v date (pv : Q) :
  unique_together table = true ->
  let d := match date with Some d => d | None => today end in
  value_before table p m d = Some pv ->
  (0 < pv)%Q -> (v < pv * (9 # 10))%Q ->
  exists t table1,
    calculate_trend table today p m v date = Ok t table1 /\
    trend_direction t = "declining" /\
    is_concerning t = true.
Proof.
  intros Hu d Hprev Hpos Hdrop.
  destruct (calculate_trend_upsert table today p m v date Hu) as (t & table1 & Hc & _ & _).
  exists t, table1. split; [exact Hc|].
  destruct (calculate_trend_fields table today p m v date t table1 Hc)
    as (_ & _ & Hchg & _ & Hdir).
  fold d in Hchg, Hdir. rewrite Hprev in Hchg, Hdir. unfold percent_change in Hchg, Hdir.
  assert (Hnz : Qeq_bool pv 0 = false).
  { destruct (Qeq_bool pv 0) eqn:E; [|reflexivity]. apply Qeq_bool_iff in E. lra. }
  rewrite Hnz in Hchg, Hdir. cbn [negb] in Hchg, Hdir.
  set (c := ((v - pv) / pv * 100)%Q) in *.
  assert (Hc10 : (c < -10)%Q).
  { unfold c. assert (H : ((v - pv) / pv < - (1 # 10))%Q).
    { apply Qlt_shift_div_r; [exact Hpos|]. lra. }
    lra. }
  assert (H5 : Qltb 5 c = false) by (apply Qltb_ge; lra).
  assert (Hm5 : Qltb c (-5) = true) by (apply Qltb_lt; lra).
  rewrite H5, Hm5 in Hdir. split; [exact Hdir|].
  unfold is_concerning. cbn [existsb id]. rewrite Hdir, Hchg. cbn [String.eqb Ascii.eqb Bool.eqb].
  unfold truthy_lt.
  assert (Hcz : Qeq_bool c 0 = false).
  { destruct (Qeq_bool c 0) eqn:E; [|reflexivity]. apply Qeq_bool_iff in E. lra. }
  assert (Hlt : Qltb c (-10) = true) by (apply Qltb_lt; lra).
  rewrite Hcz, Hlt. reflexivity.
Qed.

Lemma steep_drop_is_concerning_witness :
  unique_together two_points = true /\
  value_before two_points 1 "participation" 9 = Some 80%Q /\
  (0 < 80)%Q /\ (60 < 80 * (9 # 10))%Q /\
  exists t table1,
    calculate_trend two_points 9 1 "participation" 60 None = Ok t table1 /\
    trend_direction t = "declining" /\
    is_concerning t = true.
Proof.
  split; [reflexivity|]. split; [reflexivity|].
  split; [reflexivity|]. split; [reflexivity|].
  exact (steep_drop_is_concerning two_points 9 1 "participation" 60 None 80
           eq_refl eq_refl eq_refl eq_refl).
Defined.

(** X22.  Two recordings in a row: when the series has no row dated
    strictly between [d1] and [d2], the row recorded for [d2] after a
    recording of [v1] for [d1] has [v1] as its previous value, and its
    change is measured against [v1]. *)
Theorem consecutive_recordings table today today' p m (v1 v2 : Q) (d1 d2 : Z) :
  unique_together table = true ->
  d1 < d2 ->
  (forall r, In r table -> same_series p m r = true -> t_date r <= d1 \/ d2 <= t_date r) ->
  exists t1 table1 t2 table2,
    calculate_trend table today p m v1 (Some d1) = Ok t1 table1 /\
    calculate_trend table1 today' p m v2 (Some d2) = Ok t2 table2 /\
    current_value t2 = v2 /\
    previous_value t2 = Some v1 /\
    change_percentage t2 = percent_change v2 (Some v1).
Proof.
  intros Hu Hlt Hgap.
  destruct (calculate_trend_upsert table today p m v1 (Some d1) Hu)
    as (t1 & table1 & Hc1 & Hkey1 & Hother1). cbv zeta in Hkey1, Hother1.
  destruct (calculate_trend_fields _ _ _ _ _ _ _ _ Hc1) as (Hv1 & _).
  assert (Hu1 : unique_together table1 = true).
  { apply unique_from_keys. intros p' m' d'.
    destruct (decide ((p', m', d') = (p, m, d1))) as [[= -> -> ->]|Hne].
    - rewrite Hkey1. simpl. lia.
    - rewrite (Hother1 (same_key p' m' d')) by (intros r; now apply other_key).
      now apply unique_key_rows. }
  destruct (calculate_trend_upsert table1 today' p m v2 (Some d2) Hu1)
    as (t2 & table2 & Hc2 & _ & _).
  exists t1, table1, t2, table2. split; [exact Hc1|]. split; [exact Hc2|].
  destruct (calculate_trend_fields _ _ _ _ _ _ _ _ Hc2) as (Hv2 & Hp2 & Hchg2 & _).
  cbv zeta in Hp2, Hchg2.
  assert (Hprev : value_before table1 p m d2 = Some v1).
  { unfold value_before.
    assert (Ht1 : In t1 table1 /\ same_key p m d1 t1 = true).
    { apply List.filter_In. rewrite Hkey1. now left. }
    destruct Ht1 as [Hin1 Hk1]. pose proof Hk1 as Hk1'.
    apply same_key_eq in Hk1' as (Hp1 & Hm1 & Hd1).
    pose proof (latest_spec (List.filter (before p m d2) table1)) as Hl.
    destruct (latest _) as [r|].
    - destruct Hl as [Hr Hmax]. cbn [fmap option_fmap option_map]. f_equal.
      apply List.filter_In in Hr as [Hr Hb]. unfold before in Hb.
      apply andb_true_iff in Hb as [Hs Hd]. apply Z.ltb_lt in Hd.
      assert (Hge : d1 <= t_date r).
      { rewrite <- Hd1. apply Hmax. apply List.filter_In. split; [exact Hin1|].
        unfold before. apply andb_true_iff. split.
        - unfold same_key in Hk1. now apply andb_true_iff in Hk1.
        - apply Z.ltb_lt. lia. }
      assert (Hrd : t_date r = d1).
      { destruct (Z.eq_dec (t_date r) d1) as [E|E]; [exact E|]. exfalso.
        assert (Hold : In r (List.filter (fun x => same_series p m x && negb (t_date x =? d1))
                                         table)).
        { rewrite <- Hother1.
          - apply List.filter_In. split; [exact Hr|]. rewrite Hs. simpl.
            apply negb_true_iff, Z.eqb_neq. exact E.
          - intros x Hx. apply andb_true_iff in Hx as [_ Hx]. unfold same_key.
            apply negb_true_iff in Hx. rewrite Hx. apply andb_false_r. }
        apply List.filter_In in Hold as [Hold _].
        destruct (Hgap r Hold Hs); lia. }
      assert (Hrk : same_key p m d1 r = true).
      { unfold same_key. rewrite Hs. simpl. now apply Z.eqb_eq. }
      rewrite (key_rows_all p m d1 t1 table1 Hkey1 r Hr Hrk). exact Hv1.
    - exfalso.
      assert (Hin : In t1 (List.filter (before p m d2) table1)).
      { apply List.filter_In. split; [exact Hin1|]. unfold before.
        apply andb_true_iff. split.
        - unfold same_key in Hk1. now apply andb_true_iff in Hk1.
        - apply Z.ltb_lt. lia. }
      rewrite Hl in Hin. exact Hin. }
  rewrite Hprev in Hp2, Hchg2. split; [exact Hv2|]. split; [exact Hp2 | exact Hchg2].
Qed.

Lemma consecutive_recordings_witness :
  unique_together two_points = true /\ 7 < 9 /\
  exists t1 table1 t2 table2,
    calculate_trend two_points 0 1 "participation" 90 (Some 7) = Ok t1 table1 /\
    calculate_trend table1 0 1 "participation" 99 (Some 9) = Ok t2 table2 /\
    current_value t2 = 99%Q /\
    previous_value t2 = Some 90%Q /\
    change_percentage t2 = percent_change 99 (Some 90%Q).
Proof.
  split; [reflexivity|]. split; [lia|].
  apply (consecutive_recordings two_points 0 0 1 "participation" 90 99 7 9 eq_refl); [lia|].
  intros r [<-|[<-|[]]] _; simpl; lia.
Defined.

End TrendHistory.

(** * The dashboard metrics *)

Section DashboardMetrics.
Variables (table : list StandupSession) (items : list WorkItemReference).
Variables self_project start_date end_date : Z.

Lemma percent_range (a b : Z) :
  0 <= a <= b -> 0 < b -> within 0 100 (py_round (inject_Z a / inject_Z b * 100) 1).
Proof.
  intros Hab Hb. destruct (ratio_within_unit a b Hab Hb) as [H0 H1].
  apply (py_round_bounds 1 0 100); change (inject_Z 0) with 0%Q;
    change (inject_Z 100) with 100%Q; lra.
Qed.

Lemma len_cons_pos {A} (x : A) (l : list A) : 0 < len (x :: l).
Proof. unfold len. simpl length. lia. Qed.

Lemma participation_rate_range :
  exists q,
    shown (_get_participation_metrics table self_project start_date end_date) "rate" = Some q /\
    within 0 100 q.
Proof.
  unfold _get_participation_metrics.
  destruct (sessions_in_range table self_project start_date end_date) as [|s l].
  - exists 0%Q. split; [reflexivity | split; lra].
  - eexists. split; [reflexivity|].
    apply (percent_range
             (len (List.filter (fun s => String.eqb (status s) "completed") (s :: l)))
             (len (s :: l))); [apply len_filter_le | apply len_cons_pos].
Qed.

Lemma work_item_rate_range :
  exists q,
    shown (_get_work_item_metrics table items self_project start_date end_date)
          "completion_rate" = Some q /\
    within 0 100 q.
Proof.
  unfold _get_work_item_metrics.
  destruct (List.filter _ items) as [|w l].
  - exists 0%Q. split; [reflexivity | split; lra].
  - eexists. split; [reflexivity|].
    apply (percent_range (len (List.filter is_done (w :: l))) (len (w :: l)));
      [apply len_filter_le | apply len_cons_pos].
Qed.

Lemma py_int_nonneg (x : Q) : (0 <= x)%Q -> 0 <= py_int x /\ (inject_Z (py_int x) <= x)%Q.
Proof.
  intros Hx. unfold py_int.
  assert (E : Qltb x 0 = false) by now apply Qltb_ge.
  rewrite E. split; [|apply Qfloor_le].
  rewrite <- (Qfloor_Z 0). now apply Qfloor_resp_le.
Qed.

Lemma blocker_rate_range :
  exists q,
    shown (_get_blocker_metrics table self_project start_date end_date) "resolution_rate"
    = Some q /\
    within 0 70 q /\
    (_get_blocker_metrics table self_project start_date end_date !! "status"
     = Some (PyStr "concerning") \/
     _get_blocker_metrics table self_project start_date end_date !! "status"
     = Some (PyStr "average")).
Proof.
  unfold _get_blocker_metrics.
  destruct (sessions_in_range table self_project start_date end_date) as [|s l].
  - exists 0%Q. split; [reflexivity|]. split; [split; lra | left; reflexivity].
  - set (n := len (List.filter has_blockers (s :: l))).
    set (rate := if 0 <? n
                 then (inject_Z (py_int (inject_Z n * (7 # 10))) / inject_Z n * 100)%Q
                 else 0%Q).
    assert (Hrate : within 0 70 rate).
    { unfold rate. destruct (Z.ltb_spec 0 n) as [Hn|Hn]; [|split; lra].
      assert (Hnq : (0 < inject_Z n)%Q)
        by (change 0%Q with (inject_Z 0); now rewrite <- Zlt_Qlt).
      destruct (py_int_nonneg (inject_Z n * (7 # 10))) as [Hk0 Hk1]; [lra|].
      set (k := py_int (inject_Z n * (7 # 10))) in *.
      assert (Hkq : (0 <= inject_Z k)%Q)
        by (change 0%Q with (inject_Z 0); now rewrite <- Zle_Qle).
      assert (Hlo : (0 <= inject_Z k / inject_Z n)%Q).
      { apply Qle_shift_div_l; [exact Hnq|]. lra. }
      assert (Hhi : (inject_Z k / inject_Z n <= 7 # 10)%Q).
      { apply Qle_shift_div_r; [exact Hnq|]. lra. }
      split; lra. }
    exists (py_round rate 1). split; [reflexivity|]. split.
    + destruct Hrate. apply (py_round_bounds 1 0 70); assumption.
    + assert (H80 : Qleb 80 rate = false).
      { destruct (Qleb 80 rate) eqn:E; [|reflexivity]. apply Qleb_le in E.
        destruct Hrate. lra. }
      rewrite H80. destruct (Qltb rate 60); [left | right]; reflexivity.
Qed.

Lemma scores_of_within (l : list StandupSession) :
  (forall s q, In s l -> sentiment_score s = Some q -> within 0 1 q) ->
  Forall (within 0 1) (scores_of l).
Proof.
  intros H. apply List.Forall_forall. intros q Hq. unfold scores_of in Hq.
  apply list_elem_of_In, list_elem_of_omap in Hq as (s & Hs & Hq).
  apply list_elem_of_In in Hs. exact (H s q Hs Hq).
Qed.

Lemma sentiment_score_range :
  unit_sentiment table ->
  exists q,
    shown (_get_sentiment_metrics table self_project start_date end_date) "score" = Some q /\
    within 0 100 q.
Proof.
  intros Hunit. unfold _get_sentiment_metrics.
  match goal with
  | |- context [match ?f with [] => _ | _ :: _ => _ end] => set (sessions := f)
  end.
  assert (Hin : forall s, In s sessions -> In s table).
  { intros s Hs. unfold sessions, sessions_in_range in Hs.
    apply List.filter_In in Hs as [Hs _]. now apply List.filter_In in Hs as [Hs _]. }
  destruct sessions as [|s l].
  - exists 0%Q. split; [reflexivity | split; lra].
  - set (avg := match scores_of (s :: l) with
                | [] => 0%Q
                | _ => (sumQ (scores_of (s :: l)) / inject_Z (len (scores_of (s :: l))))%Q
                end).
    assert (Havg : within 0 1 avg).
    { unfold avg. destruct (scores_of (s :: l)) as [|q qs] eqn:E; [split; lra|].
      apply mean_within; [discriminate|]. rewrite <- E. apply scores_of_within.
      intros s' q' Hs'. apply Hunit. now apply Hin. }
    exists (py_round (avg * 100) 1). split; [reflexivity|].
    destruct Havg. apply (py_round_bounds 1 0 100);
      change (inject_Z 0) with 0%Q; change (inject_Z 100) with 100%Q; lra.
Qed.

End DashboardMetrics.

Section DashboardScore.

Lemma py_round_1_tenths (lo hi : Z) (x : Q) :
  (inject_Z lo <= x * 10)%Q -> (x * 10 <= inject_Z hi)%Q ->
  (inject_Z lo <= py_round x 1 * 10)%Q /\ (py_round x 1 * 10 <= inject_Z hi)%Q.
Proof.
  intros Hlo Hhi. unfold py_round. change (inject_Z (pow10 1)) with 10%Q.
  destruct (round_half_even_bounds (x * 10) lo hi Hlo Hhi) as [Hk1 Hk2].
  set (k := round_half_even (x * 10)) in *.
  rewrite Zle_Qle in Hk1. rewrite Zle_Qle in Hk2.
  assert (E : (inject_Z k / 10 * 10 == inject_Z k)%Q) by (field; discriminate).
  rewrite E. split; assumption.
Qed.

Lemma overall_score_bounds (metrics : gmap string (gmap string pyval)) (p s b w : Q) :
  display_value metrics "participation" "rate" = Some p ->
  display_value metrics "sentiment" "score" = Some s ->
  display_value metrics "blockers" "resolution_rate" = Some b ->
  display_value metrics "work_items" "completion_rate" = Some w ->
  within 0 100 p -> within 0 100 s -> within 0 70 b -> within 0 100 w ->
  exists r sc,
    _calculate_overall_health_score metrics = Some r /\
    r !! "score" = Some (PyNum sc) /\ r !! "max_score" = Some (PyInt 100) /\
    within 0 (925 # 10) sc.
Proof.
  intros Hp Hs Hb Hw [Hp0 Hp1] [Hs0 Hs1] [Hb0 Hb1] [Hw0 Hw1].
  unfold _calculate_overall_health_score. unfold weights.
  cbn [mapM fst snd value_key String.eqb Ascii.eqb Bool.eqb].
  unfold display_value in *. simpl value_key.
  rewrite (times_weight_number _ _ _ Hp), (times_weight_number _ _ _ Hs),
          (times_weight_number _ _ _ Hb), (times_weight_number _ _ _ Hw).
  simpl. eexists _, _. split; [reflexivity|]. split; [reflexivity|].
  split; [reflexivity|].
  set (total := sumQ _).
  assert (E : (total == p * (3 # 10) + s * (25 # 100) + b * (25 # 100) + w * (2 # 10))%Q)
    by (unfold total, sumQ; simpl; ring).
  destruct (py_round_1_tenths 0 925 total) as [H0 H1].
  - change (inject_Z 0) with 0%Q. rewrite E. lra.
  - change (inject_Z 925) with 925%Q. rewrite E. lra.
  - change (inject_Z 0) with 0%Q in H0. change (inject_Z 925) with 925%Q in H1.
    split; lra.
Qed.

Lemma overall_score_zero (metrics : gmap string (gmap string pyval)) :
  display_value metrics "participation" "rate" = Some 0%Q ->
  display_value metrics "sentiment" "score" = Some 0%Q ->
  display_value metrics "blockers" "resolution_rate" = Some 0%Q ->
  display_value metrics "work_items" "completion_rate" = Some 0%Q ->
  exists r sc,
    _calculate_overall_health_score metrics = Some r /\
    r !! "score" = Some (PyNum sc) /\ (sc == 0)%Q /\
    r !! "status" = Some (PyStr "concerning").
Proof.
  intros Hp Hs Hb Hw.
  unfold _calculate_overall_health_score. unfold weights.
  cbn [mapM fst snd value_key String.eqb Ascii.eqb Bool.eqb].
  unfold display_value in *. simpl value_key.
  rewrite (times_weight_number _ _ _ Hp), (times_weight_number _ _ _ Hs),
          (times_weight_number _ _ _ Hb), (times_weight_number _ _ _ Hw).
  simpl. eexists _, _. split; [reflexivity|]. split; [reflexivity|].
  split; reflexivity.
Qed.

(** X23.  The blocker metric never shows a resolution rate above 70
    and never the status good, whatever the sessions are. *)
Theorem blocker_resolution_capped table self_project start_date end_date :
  exists q,
    shown (_get_blocker_metrics table self_project start_date end_date) "resolution_rate"
    = Some q /\
    within 0 70 q /\
    (_get_blocker_metrics table self_project start_date end_date !! "status"
     = Some (PyStr "concerning") \/
     _get_blocker_metrics table self_project start_date end_date !! "status"
     = Some (PyStr "average")).
Proof. apply blocker_rate_range. Qed.

(** X24.  With sentiment scores within [0,1], [get_mvp_metrics]
    returns the four metrics and an overall score that is a number
    within [0, 92.5], out of a maximum of 100. *)
Theorem mvp_overall_score_range table items self_project today days_back :
  unit_sentiment table ->
  exists metrics overall sc,
    get_mvp_metrics table items self_project today days_back = Some metrics /\
    metrics !! "overall_score" = Some overall /\
    overall !! "score" = Some (PyNum sc) /\
    overall !! "max_score" = Some (PyInt 100) /\
    within 0 (925 # 10) sc.
Proof.
  intros Hunit. unfold get_mvp_metrics. cbv zeta.
  destruct (participation_rate_range table self_project (today - days_back) today)
    as (p & Hp & Rp).
  destruct (sentiment_score_range table self_project (today - days_back) today Hunit)
    as (s & Hs & Rs).
  destruct (blocker_rate_range table self_project (today - days_back) today)
    as (b & Hb & Rb & _).
  destruct (work_item_rate_range table items self_project (today - days_back) today)
    as (w & Hw & Rw).
  match goal with
  | |- context [_calculate_overall_health_score ?M] => set (metrics := M)
  end.
  destruct (overall_score_bounds metrics p s b w Hp Hs Hb Hw Rp Rs Rb Rw)
    as (r & sc & Hr & Hsc & Hmax & Rsc).
  rewrite Hr. exists (<["overall_score" := r]> metrics), r, sc.
  split; [reflexivity|]. split; [reflexivity|]. split; [exact Hsc|]. split; assumption.
Qed.

Lemma mvp_overall_score_range_witness :
  unit_sentiment (sessions low_morale) /\
  exists metrics overall sc,
    get_mvp_metrics (sessions low_morale) [] 1 96 7 = Some metrics /\
    metrics !! "overall_score" = Some overall /\
    overall !! "score" = Some (PyNum sc) /\
    overall !! "max_score" = Some (PyInt 100) /\
    within 0 (925 # 10) sc.
Proof.
  assert (H : unit_sentiment (sessions low_morale)).
  { intros s q Hin Hs. cbv in Hin.
    repeat (destruct Hin as [<-|Hin];
            [cbv in Hs; first [discriminate | injection Hs as <-; split; discriminate]|]).
    destruct Hin. }
  split; [exact H|].
  exact (mvp_overall_score_range (sessions low_morale) [] 1 96 7 H).
Defined.

(** X25.  For a project without a session in the window
    [get_mvp_metrics] shows the statuses concerning, neutral,
    concerning and no_data for the four metrics, and the overall score
    0 with the status concerning. *)
Theorem mvp_metrics_without_sessions table items self_project today days_back :
  sessions_in_range table self_project (today - days_back) today = [] ->
  exists metrics overall sc,
    get_mvp_metrics table items self_project today days_back = Some metrics /\
    metric_get metrics "participation" "status" = PyStr "concerning" /\
    metric_get metrics "sentiment" "status" = PyStr "neutral" /\
    metric_get metrics "blockers" "status" = PyStr "concerning" /\
    metric_get metrics "work_items" "status" = PyStr "no_data" /\
    metrics !! "overall_score" = Some overall /\
    overall !! "score" = Some (PyNum sc) /\ (sc == 0)%Q /\
    overall !! "status" = Some (PyStr "concerning").
Proof.
  intros Hempty. unfold get_mvp_metrics. cbv zeta.
  assert (E1 : _get_participation_metrics table self_project (today - days_back) today
               = dict [("rate", PyInt 0); ("trend", PyStr "no_data");
                       ("status", PyStr "concerning")])
    by (unfold _get_participation_metrics; now rewrite Hempty).
  assert (E2 : _get_sentiment_metrics table self_project (today - days_back) today
               = dict [("score", PyInt 0); ("trend", PyStr "no_data");
                       ("status", PyStr "neutral")])
    by (unfold _get_sentiment_metrics; now rewrite Hempty).
  assert (E3 : _get_blocker_metrics table self_project (today - days_back) today
               = dict [("resolution_rate", PyInt 0); ("trend", PyStr "no_data");
                       ("status", PyStr "concerning")])
    by (unfold _get_blocker_metrics; now rewrite Hempty).
  assert (E4 : _get_work_item_metrics table items self_project (today - days_back) today
               = dict [("completion_rate", PyInt 0); ("trend", PyStr "no_data");
                       ("status", PyStr "no_data")])
    by (unfold _get_work_item_metrics;
        now rewrite (no_items_without_sessions table items _ _ _ Hempty)).
  rewrite E1, E2, E3, E4.
  match goal with
  | |- context [_calculate_overall_health_score ?M] => set (metrics := M)
  end.
  destruct (overall_score_zero metrics eq_refl eq_refl eq_refl eq_refl)
    as (r & sc & Hr & Hsc & Hzero & Hstatus).
  rewrite Hr. exists (<["overall_score" := r]> metrics), r, sc.
  split; [reflexivity|]. split; [reflexivity|]. split; [reflexivity|].
  split; [reflexivity|]. split; [reflexivity|]. split; [reflexivity|].
  split; [exact Hsc|]. split; [exact Hzero | exact Hstatus].
Qed.

Lemma mvp_metrics_without_sessions_witness :
  sessions_in_range (sessions low_morale) 1 (200 - 7) 200 = [] /\
  exists metrics overall sc,
    get_mvp_metrics (sessions low_morale) [] 1 200 7 = Some metrics /\
    metric_get metrics "participation" "status" = PyStr "concerning" /\
    metric_get metrics "sentiment" "status" = PyStr "neutral" /\
    metric_get metrics "blockers" "status" = PyStr "concerning" /\
    metric_get metrics "work_items" "status" = PyStr "no_data" /\
    metrics !! "overall_score" = Some overall /\
    overall !! "score" = Some (PyNum sc) /\ (sc == 0)%Q /\
    overall !! "status" = Some (PyStr "concerning").
Proof.
  split; [reflexivity|].
  exact (mvp_metrics_without_sessions (sessions low_morale) [] 1 200 7 eq_refl).
Defined.

End DashboardScore.

(** * Content quality *)

Section ContentQuality.



End ContentQuality.
